(** * GCPSecretManager: loading a secret into the process environment

    A shallow embedding of [secretmgr.go].  Go strings are byte strings and
    are modelled by [string] (a list of [ascii] bytes); the process
    environment is an explicit state, a finite map from names to values,
    threaded through every function that reads or writes it; Go's [error]
    results are values of the inductive type [error], with [None] for [nil].
    Logging (zerolog) is telemetry without influence on results and is left
    out; the call context and its 10 second deadline are real time and are
    not part of the model. *)

From Stdlib Require Import ZArith Ascii String List Lia DecimalString.
From stdpp Require Import base option gmap strings.

Local Open Scope string_scope.

(** ** The Go library functions the package calls *)

Module strings.

(** [len(s)] *)
Definition len (s : string) : nat := String.length s.

(** [s[i]], [None] where Go panics out of range. *)
Definition at_ (s : string) (i : nat) : option ascii := String.get i s.

(** [s[lo:hi]] for [lo <= hi <= len(s)]. *)
Definition slice (s : string) (lo hi : nat) : string :=
  String.substring lo (hi - lo) s.

(** [s[n:]] *)
Fixpoint drop (n : nat) (s : string) : string :=
  match n, s with
  | O, _ => s
  | S _, EmptyString => EmptyString
  | S n', String _ s' => drop n' s'
  end.

(** [strings.HasPrefix(s, prefix)] *)
Fixpoint HasPrefix (s prefix : string) : bool :=
  match prefix, s with
  | EmptyString, _ => true
  | String _ _, EmptyString => false
  | String p prefix', String c s' => Ascii.eqb c p && HasPrefix s' prefix'
  end.

(** [strings.IndexByte(s, c)]: position of the first byte [c], [None]
    for Go's [-1]. *)
Fixpoint IndexByte (s : string) (c : ascii) : option nat :=
  match s with
  | EmptyString => None
  | String a s' =>
      if Ascii.eqb a c then Some O else option_map S (IndexByte s' c)
  end.

(** [strings.Index(s, substr)]: position of the first occurrence. *)
Fixpoint Index (s substr : string) : option nat :=
  if HasPrefix s substr then Some O
  else match s with
       | EmptyString => None
       | String _ s' => option_map S (Index s' substr)
       end.

(** [strings.Contains(s, substr)] is [Index(s, substr) >= 0]. *)
Definition Contains (s substr : string) : bool :=
  match Index s substr with Some _ => true | None => false end.

(** [genSplit(s, sep, 0, n)] for a one-byte separator and [n > 0], after
    [n] has been capped at [len(s)+1]: at most [k] cuts are made, each at
    the first separator of what is left. *)
Fixpoint genSplit (s : string) (sep : ascii) (k : nat) : list string :=
  match k with
  | O => [s]
  | S k' =>
      match IndexByte s sep with
      | None => [s]
      | Some m => slice s 0 m :: genSplit (drop (m + 1) s) sep k'
      end
  end.

(** [strings.SplitN(s, sep, n)] with a one-byte separator (the package
    calls it with "=") and [n >= 0]. *)
Definition SplitN (s : string) (sep : ascii) (n : nat) : list string :=
  match n with
  | O => []
  | S _ => genSplit s sep (Nat.min n (len s + 1) - 1)
  end.

(** The bytes [asciiSpace] marks: tab, newline, vertical tab, form feed,
    carriage return and space. *)
Definition asciiSpace (c : ascii) : bool :=
  let n := nat_of_ascii c in
  (n =? 9)%nat || (n =? 10)%nat || (n =? 11)%nat || (n =? 12)%nat
  || (n =? 13)%nat || (n =? 32)%nat.

(** [unicode.IsSpace] on a byte string: the width in bytes of the
    white-space rune the bytes start with, [0] when they start with
    anything else.  Beyond the six ASCII bytes the white-space runes are
    U+0085, U+00A0 (two bytes in UTF-8), U+1680, U+2000 to U+200A, U+2028,
    U+2029, U+202F, U+205F and U+3000 (three bytes); UTF-8 decoding yields
    one of them exactly on its shortest encoding. *)
Definition spaceWidth (b : list nat) : nat :=
  match b with
  | a :: r =>
      if asciiSpace (ascii_of_nat a) then 1
      else match r with
           | b1 :: r' =>
               if ((a =? 194) && ((b1 =? 133) || (b1 =? 160)))%nat then 2
               else match r' with
                    | b2 :: _ =>
                        if ((a =? 225) && (b1 =? 154) && (b2 =? 128))%nat
                        then 3
                        else if ((a =? 226) && (b1 =? 128)
                                 && (((128 <=? b2) && (b2 <=? 138))
                                     || (b2 =? 168) || (b2 =? 169)
                                     || (b2 =? 175)))%nat
                        then 3
                        else if ((a =? 226) && (b1 =? 129) && (b2 =? 159))%nat
                        then 3
                        else if ((a =? 227) && (b1 =? 128) && (b2 =? 128))%nat
                        then 3
                        else 0
                    | [] => 0
                    end
           | [] => 0
           end
  | [] => 0
  end.

(** The first three bytes of [s], as numbers. *)
Definition head3 (s : string) : list nat :=
  match s with
  | String a (String b (String c _)) =>
      [nat_of_ascii a; nat_of_ascii b; nat_of_ascii c]
  | String a (String b EmptyString) => [nat_of_ascii a; nat_of_ascii b]
  | String a EmptyString => [nat_of_ascii a]
  | EmptyString => []
  end.

(** The last three bytes of [s], in order, as numbers. *)
Fixpoint last3 (s : string) : list nat :=
  match s with
  | String _ (String _ (String _ (String _ _)) as s') => last3 s'
  | _ => head3 s
  end.

(** The width of the white-space rune [s] ends with, [0] if it ends with
    anything else ([utf8.DecodeLastRuneInString] followed by
    [unicode.IsSpace]). *)
Definition lastSpaceWidth (s : string) : nat :=
  match last3 s with
  | [a; b; c] =>
      if (spaceWidth [c] =? 1)%nat then 1
      else if (spaceWidth [b; c] =? 2)%nat then 2
      else if (spaceWidth [a; b; c] =? 3)%nat then 3
      else 0
  | [b; c] =>
      if (spaceWidth [c] =? 1)%nat then 1
      else if (spaceWidth [b; c] =? 2)%nat then 2
      else 0
  | [c] => spaceWidth [c]
  | _ => 0
  end.

(** [strings.TrimLeftFunc(s, unicode.IsSpace)]; [fuel] bounds the number
    of runes removed, [len(s)] is enough. *)
Fixpoint trimLeft (fuel : nat) (s : string) : string :=
  match fuel with
  | O => s
  | S fuel' =>
      match spaceWidth (head3 s) with
      | O => s
      | w => trimLeft fuel' (drop w s)
      end
  end.

(** [strings.TrimRightFunc(s, unicode.IsSpace)] *)
Fixpoint trimRight (fuel : nat) (s : string) : string :=
  match fuel with
  | O => s
  | S fuel' =>
      match lastSpaceWidth s with
      | O => s
      | w => trimRight fuel' (slice s 0 (len s - w))
      end
  end.

(** [strings.TrimSpace(s)]: [s] without leading and trailing white space.
    Go's fast path over ASCII bytes and its fall-back on the first
    non-ASCII byte compute the same string. *)
Definition TrimSpace (s : string) : string :=
  let l := trimLeft (len s) s in trimRight (len l) l.

End strings.

(** Go's [int] on the 64-bit targets: a value of [Z] kept in range by
    wrapping. *)
Module int.
Definition MaxInt : Z := 2 ^ 63 - 1.
Definition wrap (z : Z) : Z := (z + 2 ^ 63) mod 2 ^ 64 - 2 ^ 63.
(** [n++] *)
Definition incr (n : Z) : Z := wrap (n + 1).
End int.

Module fmt.

(** An operand of [Sprintf].  An [error] operand is passed as the text of
    its [Error()] method, which is what the verbs [%v], [%s] and [%w]
    print for it. *)
Inductive operand : Type :=
| Str (s : string)
| Int (n : Z).

(** [strconv.Itoa] *)
Definition Itoa (n : Z) : string := NilZero.string_of_int (Z.to_int n).

Definition render (a : operand) : string :=
  match a with
  | Str s => s
  | Int n => Itoa n
  end.

(** [fmt.Sprintf(format, args...)] for the verbs the package uses, [%s],
    [%d], [%v] and [%w], each printing the next operand; a verb without an
    operand prints Go's [%!v(MISSING)] marker. *)
Fixpoint Sprintf (format : string) (args : list operand) : string :=
  match format with
  | String "%" (String verb rest) =>
      match args with
      | a :: args' => render a ++ Sprintf rest args'
      | [] => "%!" ++ String verb "(MISSING)" ++ Sprintf rest []
      end
  | String c rest => String c (Sprintf rest args)
  | EmptyString => EmptyString
  end.

End fmt.

(** ** Errors *)

(** [ConfigError]: a required environment variable is missing. *)
Record ConfigError : Type := { MissingField : string }.

(** [ParseError]: a line of the secret that could not be loaded. *)
Record ParseError : Type := {
  Line : string;
  LineNum : Z;
  Reason : string
}.

(** The values of Go's [error] interface that the package can return. *)
Inductive error : Type :=
| errorString (s : string)
    (** [errors.New(s)], [fmt.Errorf] without [%w], errors of the remote
        service *)
| SyscallError (Syscall : string) (Err : string)
    (** [*os.SyscallError], [Err] the text of the errno *)
| ErrConfig (e : ConfigError)
| ErrParse (e : ParseError)
| wrapError (msg : string) (err : error)
    (** [*fmt.wrapError]: the formatted text and the error [%w] wrapped *).

Definition ConfigError_Error (e : ConfigError) : string :=
  fmt.Sprintf "missing required environment variable: %s"
    [fmt.Str (MissingField e)].

Definition ParseError_Error (e : ParseError) : string :=
  fmt.Sprintf "invalid format at line %d (%s): %s"
    [fmt.Int (LineNum e); fmt.Str (Line e); fmt.Str (Reason e)].

(** The [Error()] method. *)
Definition Error (e : error) : string :=
  match e with
  | errorString s => s
  | SyscallError call err => call ++ ": " ++ err
  | ErrConfig c => ConfigError_Error c
  | ErrParse p => ParseError_Error p
  | wrapError msg _ => msg
  end.

(** [fmt.Errorf(format, err)] where [format] ends in [%w]. *)
Definition Errorf_w (format : string) (err : error) : error :=
  wrapError (fmt.Sprintf format [fmt.Str (Error err)]) err.

(** [errors.Unwrap] *)
Definition Unwrap (e : error) : option error :=
  match e with
  | wrapError _ err => Some err
  | _ => None
  end.

(** A function result [(T, error)]. *)
Inductive result (T : Type) : Type :=
| Ok (v : T)
| Fail (err : error).
Arguments Ok {T} v.
Arguments Fail {T} err.

(** ** The process environment *)

Module os.

(** The environment of the process: the variables that are set. *)
Abbreviation Environ := (gmap string string).

(** [os.Getenv(key)]: the value, empty when the variable is not set. *)
Definition Getenv (key : string) (env : Environ) : string :=
  default "" (env !! key).

Definition NUL : ascii := ascii_of_nat 0.

(** Whether some byte of [s] is [c]. *)
Definition hasByte (s : string) (c : ascii) : bool :=
  match strings.IndexByte s c with Some _ => true | None => false end.

(** The arguments [syscall.Setenv] accepts on Unix: a non-empty key
    without ['='] and without NUL, a value without NUL. *)
Definition validSetenv (key value : string) : bool :=
  negb (strings.len key =? 0)%nat
  && negb (hasByte key "=")
  && negb (hasByte key NUL)
  && negb (hasByte value NUL).

(** [os.Setenv(key, value)]: [EINVAL] from [syscall.Setenv], wrapped in a
    [SyscallError], or the variable set. *)
Definition Setenv (key value : string) (env : Environ)
  : Environ * option error :=
  if validSetenv key value then (<[key := value]> env, None)
  else (env, Some (SyscallError "setenv" "invalid argument")).

End os.

(** ** Reading lines *)

Module bufio.

Definition MaxScanTokenSize : Z := 64 * 1024.

Definition ErrTooLong : error := errorString "bufio.Scanner: token too long".

(** [dropCR(data)] *)
Definition dropCR (data : string) : string :=
  match strings.len data with
  | O => data
  | S n =>
      match strings.at_ data n with
      | Some c => if Ascii.eqb c "013" then strings.slice data 0 n else data
      | None => data
      end
  end.

(** [ScanLines(data, atEOF)] on all the input that is left: how far to
    advance and the token, [None] when the input is used up. *)
Definition ScanLines (data : string) : option (nat * string) :=
  match data with
  | EmptyString => None
  | _ =>
      match strings.IndexByte data "010" with
      | Some i => Some (i + 1, dropCR (strings.slice data 0 i))%nat
      | None => Some (strings.len data, dropCR data)
      end
  end.

(** The tokens [Scan()] yields with [Text()] over the input [data], in
    order, and what [Err()] reports once [Scan()] has returned false.  A
    line of [MaxScanTokenSize] bytes or more (its newline not counted)
    fills the buffer before its end is seen and stops the scanner with
    [ErrTooLong].  [fuel] bounds the number of tokens. *)
Fixpoint scan (fuel : nat) (data : string) : list string * option error :=
  match fuel with
  | O => ([], None)
  | S fuel' =>
      match ScanLines data with
      | None => ([], None)
      | Some (advance, token) =>
          let lineLen :=
            match strings.IndexByte data "010" with
            | Some i => i
            | None => strings.len data
            end in
          if (MaxScanTokenSize <=? Z.of_nat lineLen)%Z
          then ([], Some ErrTooLong)
          else let (tokens, err) := scan fuel' (strings.drop advance data) in
               (token :: tokens, err)
      end
  end.

(** A scanner that has run over its input. *)
Record Scanner : Type := {
  Tokens : list string;
  Err : option error
}.

(** [bufio.NewScanner(bytes.NewBufferString(input))] *)
Definition NewScanner (input : string) : Scanner :=
  let (tokens, err) := scan (strings.len input) input in
  {| Tokens := tokens; Err := err |}.

End bufio.

(** ** The Secret Manager service *)

Module secretmanagerpb.
Record AccessSecretVersionRequest : Type := { Name : string }.
Record SecretPayload : Type := { Data : list Byte.byte }.
(** A response of the service carries a payload; a nil [Payload], which
    [GetSecret] would dereference, is not an answer of the service. *)
Record AccessSecretVersionResponse : Type := { Payload : SecretPayload }.
End secretmanagerpb.

(** The interface [secretManagerClient]: what the package needs from the
    service. *)
Record secretManagerClient : Type := {
  AccessSecretVersion :
    secretmanagerpb.AccessSecretVersionRequest ->
    result secretmanagerpb.AccessSecretVersionResponse;
  Close_client : option error
}.

(** ** The package *)

Record Config : Type := {
  ProjectID : string;
  SecretName : string;
  SecretVersion : string
}.

Record Client : Type := {
  client : secretManagerClient;
  config : Config
}.

(** [NewConfig()] reads the environment. *)
Definition NewConfig (env : os.Environ) : result Config :=
  let projectID := os.Getenv "GCP_PROJECT_ID" env in
  if (projectID =? "")%string
  then Fail (ErrConfig {| MissingField := "GCP_PROJECT_ID" |})
  else
    let secretName := os.Getenv "SECRET_NAME" env in
    if (secretName =? "")%string
    then Fail (ErrConfig {| MissingField := "SECRET_NAME" |})
    else
      let secretVersion := os.Getenv "SECRET_VERSION" env in
      let secretVersion :=
        if (secretVersion =? "")%string then "latest" else secretVersion in
      Ok {| ProjectID := projectID;
            SecretName := secretName;
            SecretVersion := secretVersion |}.

(** [NewSecret(ctx)]; [defaultClientFactory] is the package variable that
    makes the client of the service. *)
Definition NewSecret (defaultClientFactory : result secretManagerClient)
    (env : os.Environ) : result Client :=
  match NewConfig env with
  | Fail err => Fail (Errorf_w "failed to create config: %w" err)
  | Ok config =>
      match defaultClientFactory with
      | Fail err =>
          Fail (Errorf_w "failed to create secret manager client: %w" err)
      | Ok client => Ok {| client := client; config := config |}
      end
  end.

(** [(c *Client) GetSecret(ctx)] *)
Definition GetSecret (c : Client) : result string :=
  let name :=
    fmt.Sprintf "projects/%s/secrets/%s/versions/%s"
      [fmt.Str (ProjectID (config c));
       fmt.Str (SecretName (config c));
       fmt.Str (SecretVersion (config c))] in
  let req := {| secretmanagerpb.Name := name |} in
  match AccessSecretVersion (client c) req with
  | Fail err => Fail (Errorf_w "failed to access secret: %w" err)
  | Ok result =>
      Ok (string_of_list_byte
            (secretmanagerpb.Data (secretmanagerpb.Payload result)))
  end.

(** [(c *Client) Close()] *)
Definition Close (c : Client) : option error :=
  match Close_client (client c) with
  | Some err => Some (Errorf_w "failed to close secret manager client: %w" err)
  | None => None
  end.

(** [s[i] == c], false out of range. *)
Definition byteIs (s : string) (i : nat) (c : ascii) : bool :=
  match strings.at_ s i with
  | Some b => Ascii.eqb b c
  | None => false
  end.

(** [parseAndSetEnv(line, lineNum)] *)
Definition parseAndSetEnv (line : string) (lineNum : Z) (env : os.Environ)
  : os.Environ * option error :=
  match strings.SplitN line "=" 2 with
  | [rawKey; rawValue] =>
      let key := strings.TrimSpace rawKey in
      let value := strings.TrimSpace rawValue in
      if (key =? "")%string
      then (env, Some (ErrParse {| Line := line; LineNum := lineNum;
                                   Reason := "empty key is not allowed" |}))
      else
        (* [value] after the bracket block, [None] for its early return *)
        let unpacked :=
          if strings.Contains value "="
          then if (2 <? strings.len value)%nat
                  && byteIs value 0 "["
                  && byteIs value (strings.len value - 1) "]"
               then Some (strings.slice value 1 (strings.len value - 1))
               else None
          else Some value in
        match unpacked with
        | None =>
            (env, Some (ErrParse {| Line := line; LineNum := lineNum;
                                    Reason := "invalid specific key-value pair" |}))
        | Some value =>
            match os.Setenv key value env with
            | (env', Some err) =>
                (env', Some (ErrParse
                   {| Line := line; LineNum := lineNum;
                      Reason :=
                        fmt.Sprintf "failed to set environment variable: %v"
                          [fmt.Str (Error err)] |}))
            | (env', None) => (env', None)
            end
        end
  | _ =>
      (env, Some (ErrParse
         {| Line := line; LineNum := lineNum;
            Reason := "line must contain exactly one '=' character" |}))
  end.

(** The package variable [newScanner]. *)
Definition newScanner (input : string) : bufio.Scanner :=
  bufio.NewScanner input.

(** The loop [for scanner.Scan() { ... }] of [LoadSecretToEnv] over the
    tokens the scanner yields: the environment it leaves and the error it
    returns with, [None] when it runs to the end of the tokens. *)
Fixpoint scanLoop (tokens : list string) (lineNum : Z) (env : os.Environ)
  : os.Environ * option error :=
  match tokens with
  | [] => (env, None)
  | text :: tokens' =>
      let lineNum := int.incr lineNum in
      let line := strings.TrimSpace text in
      if (line =? "")%string then scanLoop tokens' lineNum env
      else
        match parseAndSetEnv line lineNum env with
        | (env', Some err) =>
            (env', Some (Errorf_w "failed to set environment variable: %w" err))
        | (env', None) => scanLoop tokens' lineNum env'
        end
  end.

(** [(c *Client) LoadSecretToEnv(ctx)] *)
Definition LoadSecretToEnv (c : Client) (env : os.Environ)
  : os.Environ * option error :=
  match GetSecret c with
  | Fail err => (env, Some (Errorf_w "failed to retrieve secret: %w" err))
  | Ok content =>
      let scanner := newScanner content in
      match scanLoop (bufio.Tokens scanner) 0 env with
      | (env', Some err) => (env', Some err)
      | (env', None) =>
          match bufio.Err scanner with
          | Some err =>
              (env', Some (Errorf_w "error reading secret content: %w" err))
          | None => (env', None)
          end
      end
  end.

(** The test double of the package's tests. *)
Definition mockSecretManagerClient (secretPayload : string) (isSuccess : bool)
  : secretManagerClient :=
  {| AccessSecretVersion := fun _ =>
       if isSuccess
       then Ok {| secretmanagerpb.Payload :=
                    {| secretmanagerpb.Data :=
                         list_byte_of_string secretPayload |} |}
       else Fail (errorString "access error");
     Close_client := None |}.

(** ** Vocabulary of the statements *)

(** The bracket test of [parseAndSetEnv]: longer than two bytes, first byte
    ['['], last byte [']']. *)
Definition bracketed (value : string) : bool :=
  (2 <? strings.len value)%nat && byteIs value 0 "["
  && byteIs value (strings.len value - 1) "]".

(** The same, as a proposition on the bytes. *)
Definition Wrapped (value : string) : Prop :=
  (2 < strings.len value)%nat
  /\ strings.at_ value 0 = Some "["%char
  /\ strings.at_ value (strings.len value - 1) = Some "]"%char.

(** The bytes of a line are text: none is NUL. *)
Definition noNUL (s : string) : Prop := strings.IndexByte s os.NUL = None.

(** The reason [parseAndSetEnv] rejects a line with, [None] for a line it
    accepts. *)
Definition rejection (line : string) : option string :=
  match parseAndSetEnv line 0 ∅ with
  | (_, Some (ErrParse p)) => Some (Reason p)
  | (_, Some _) => Some ""
  | (_, None) => None
  end.

(** A token of the scanner that the loop of [LoadSecretToEnv] gets past:
    blank once trimmed, or accepted by [parseAndSetEnv]. *)
Definition wellFormed (text : string) : Prop :=
  strings.TrimSpace text = "" \/ rejection (strings.TrimSpace text) = None.

(** A token that stops the loop. *)
Definition malformed (text : string) : Prop :=
  strings.TrimSpace text <> "" /\ rejection (strings.TrimSpace text) <> None.

(** What one token does to the environment when it is loaded. *)
Definition applyLine (env : os.Environ) (text : string) : os.Environ :=
  let line := strings.TrimSpace text in
  if (line =? "")%string then env else fst (parseAndSetEnv line 0 env).

(** The tokens applied in order. *)
Definition applyLines (texts : list string) (env : os.Environ) : os.Environ :=
  fold_left applyLine texts env.

(** Every byte of [s] is one of the six ASCII white-space bytes. *)
Fixpoint allSpace (s : string) : bool :=
  match s with
  | EmptyString => true
  | String c s' => strings.asciiSpace c && allSpace s'
  end.

(** An environment variable is absent or empty. *)
Definition unset (key : string) (env : os.Environ) : Prop :=
  env !! key = None \/ env !! key = Some "".

(** The resource name of the secret version a configuration designates. *)
Definition resourceName (cfg : Config) : string :=
  "projects/" ++ ProjectID cfg ++ "/secrets/" ++ SecretName cfg
  ++ "/versions/" ++ SecretVersion cfg.

(** A service that answers every request with the name it was asked for. *)
Definition echoClient : secretManagerClient :=
  {| AccessSecretVersion := fun req =>
       Ok {| secretmanagerpb.Payload :=
               {| secretmanagerpb.Data :=
                    list_byte_of_string (secretmanagerpb.Name req) |} |};
     Close_client := None |}.

(** A client over the test double, with the empty configuration of the
    package's tests. *)
Definition mockClient (secretPayload : string) (isSuccess : bool) : Client :=
  {| client := mockSecretManagerClient secretPayload isSuccess;
     config := {| ProjectID := ""; SecretName := ""; SecretVersion := "" |} |}.

(** A line sets [key] to [value]: [parseAndSetEnv] accepts it and makes
    that one write, at every line number and in every environment. *)
Definition sets (line key value : string) : Prop :=
  forall (lineNum : Z) (env : os.Environ),
    parseAndSetEnv line lineNum env = (<[key := value]> env, None).

(** The four reasons [parseAndSetEnv] gives for refusing a line. *)
Definition parseReasons : list string :=
  ["line must contain exactly one '=' character";
   "empty key is not allowed";
   "invalid specific key-value pair";
   "failed to set environment variable: setenv: invalid argument"].

(** What a token does to the environment: one write, or nothing. *)
Definition write (o : option (string * string)) (env : os.Environ)
  : os.Environ :=
  match o with
  | Some (key, value) => <[key := value]> env
  | None => env
  end.

(** The value the last write to [key] in a run of writes leaves. *)
Fixpoint lastWrite (ws : list (option (string * string))) (key : string)
  : option string :=
  match ws with
  | [] => None
  | o :: ws' =>
      match lastWrite ws' key with
      | Some v => Some v
      | None =>
          match o with
          | Some (k, v) => if (k =? key)%string then Some v else None
          | None => None
          end
      end
  end.

(** A string neither starts nor ends with a white-space rune. *)
Definition trimmed (s : string) : Prop :=
  strings.spaceWidth (strings.head3 s) = 0%nat
  /\ strings.lastSpaceWidth s = 0%nat.

(** [count] copies of the byte [c]. *)
Fixpoint repeatByte (c : ascii) (count : nat) : string :=
  match count with
  | O => EmptyString
  | S count' => String c (repeatByte c count')
  end.

(** A line of text: it holds no newline. *)
Definition noNewline (l : string) : Prop :=
  strings.IndexByte l "010" = None.

(** A line the scanner can yield: shorter than [bufio.MaxScanTokenSize]. *)
Definition shortLine (l : string) : Prop :=
  noNewline l /\ (Z.of_nat (strings.len l) < bufio.MaxScanTokenSize)%Z.

(** The length of the first line of [data], its newline not counted. *)
Definition lineLen (data : string) : nat :=
  match strings.IndexByte data "010" with
  | Some i => i
  | None => strings.len data
  end.

(** The text made of [lines], each followed by a newline, and then
    [rest]. *)
Definition joinLines (lines : list string) (rest : string) : string :=
  fold_right (fun l acc => l ++ String "010" acc) rest lines.

(** What [parseAndSetEnv] does with a line once it is cut into the raw key
    before its first ['='] and the raw value after it. *)
Definition setRawEntry (line : string) (lineNum : Z) (rawKey rawValue : string)
    (env : os.Environ) : os.Environ * option error :=
  let refuse reason :=
    (env, Some (ErrParse {| Line := line; LineNum := lineNum;
                            Reason := reason |})) in
  let key := strings.TrimSpace rawKey in
  let value := strings.TrimSpace rawValue in
  if (key =? "")%string then refuse "empty key is not allowed"
  else if strings.Contains value "="
       then if bracketed value
            then let inner :=
                   strings.slice value 1 (strings.len value - 1) in
                 if os.validSetenv key inner
                 then (<[key := inner]> env, None)
                 else refuse
                   "failed to set environment variable: setenv: invalid argument"
            else refuse "invalid specific key-value pair"
       else if os.validSetenv key value
            then (<[key := value]> env, None)
            else refuse
              "failed to set environment variable: setenv: invalid argument".

(** ** Facts about the string functions *)

Section StringFacts.

Import strings.

Lemma append_nil (t : string) : EmptyString ++ t = t.
Proof. reflexivity. Qed.

Lemma append_cons (a : ascii) (s t : string) :
  String a s ++ t = String a (s ++ t).
Proof. reflexivity. Qed.

Lemma slice_0 (s : string) (m : nat) : slice s 0 m = String.substring 0 m s.
Proof. unfold slice. now rewrite Nat.sub_0_r. Qed.

Lemma slice_0_cons (a : ascii) (s : string) (m : nat) :
  slice (String a s) 0 (S m) = String a (slice s 0 m).
Proof. now rewrite !slice_0. Qed.

Lemma HasPrefix_empty (s : string) : HasPrefix s EmptyString = true.
Proof. now destruct s. Qed.

(** [Index] with a one-byte pattern is [IndexByte], as in Go. *)
Lemma Index_byte (s : string) (c : ascii) :
  Index s (String c EmptyString) = IndexByte s c.
Proof.
  induction s as [|a s IH]; simpl; [reflexivity|].
  rewrite HasPrefix_empty, andb_true_r. destruct (Ascii.eqb a c); [reflexivity|].
  now rewrite IH.
Qed.

Lemma Contains_byte (s : string) (c : ascii) :
  Contains s (String c EmptyString) = os.hasByte s c.
Proof. unfold Contains, os.hasByte. now rewrite Index_byte. Qed.

(** The first occurrence cuts the string in three. *)
Lemma IndexByte_Some (s : string) (c : ascii) (m : nat) :
  IndexByte s c = Some m ->
  s = slice s 0 m ++ String c (drop (m + 1) s)
  /\ IndexByte (slice s 0 m) c = None
  /\ len s = (m + 1 + len (drop (m + 1) s))%nat.
Proof.
  revert m. induction s as [|a s IH]; intros m; simpl; [discriminate|].
  destruct (Ascii.eqb a c) eqn:E.
  - intros [= <-]. apply Ascii.eqb_eq in E. subst a. now rewrite slice_0.
  - destruct (IndexByte s c) as [k|] eqn:K; simpl; [|discriminate].
    intros [= <-]. destruct (IH k eq_refl) as (H1 & H2 & H3).
    rewrite slice_0_cons. simpl. rewrite E, H2. simpl.
    repeat split; [rewrite append_cons; now f_equal | now rewrite H3].
Qed.

Lemma len_0 (s : string) : len s = O -> s = EmptyString.
Proof. now destruct s. Qed.

(** [SplitN(line, "=", 2)] on a line without the separator. *)
Lemma SplitN_2_None (s : string) (c : ascii) :
  IndexByte s c = None -> SplitN s c 2 = [s].
Proof.
  intros H. unfold SplitN. destruct s as [|a s]; [reflexivity|].
  cbn [len String.length]. replace (Nat.min 2 (S (String.length s) + 1) - 1)%nat
    with 1%nat by lia.
  cbn [genSplit]. now rewrite H.
Qed.

(** [SplitN(line, "=", 2)] cuts at the first separator only. *)
Lemma SplitN_2_Some (s : string) (c : ascii) (m : nat) :
  IndexByte s c = Some m -> SplitN s c 2 = [slice s 0 m; drop (m + 1) s].
Proof.
  intros H. unfold SplitN. destruct s as [|a s]; [discriminate|].
  cbn [len String.length]. replace (Nat.min 2 (S (String.length s) + 1) - 1)%nat
    with 1%nat by lia.
  cbn [genSplit]. now rewrite H.
Qed.

Lemma len_append (s t : string) :
  String.length (s ++ t) = (String.length s + String.length t)%nat.
Proof.
  induction s as [|a s IH]; [reflexivity|].
  rewrite append_cons. simpl. now rewrite IH.
Qed.

Lemma get_last (s : string) (c : ascii) :
  String.get (String.length s) (s ++ String c EmptyString) = Some c.
Proof.
  induction s as [|a s IH]; [reflexivity|]. now rewrite append_cons.
Qed.

Lemma substring_all_app (s t : string) :
  String.substring 0 (String.length s) (s ++ t) = s.
Proof.
  induction s as [|a s IH]; [now destruct t|].
  rewrite append_cons. simpl. now rewrite IH.
Qed.

(** A string that ends with [c] is its front followed by [c]. *)
Lemma snoc_of_last (s : string) (n : nat) (c : ascii) :
  String.length s = S n -> String.get n s = Some c ->
  s = String.substring 0 n s ++ String c EmptyString.
Proof.
  revert n. induction s as [|a s IH]; intros n; simpl; [discriminate|].
  intros [= L]. destruct n as [|n].
  - intros [= ->]. apply len_0 in L. now subst s.
  - intros G. simpl. rewrite append_cons. f_equal. now apply IH.
Qed.

Lemma bracketed_inner (value : string) :
  bracketed value = true ->
  value = "[" ++ slice value 1 (len value - 1) ++ "]".
Proof.
  unfold bracketed, byteIs, at_, slice, len.
  destruct value as [|a v]; [discriminate|].
  cbn [String.length String.get]. rewrite !andb_true_iff.
  intros [[L A] B]. apply Nat.ltb_lt in L. apply Ascii.eqb_eq in A. subst a.
  replace (S (String.length v) - 1)%nat with (String.length v) in * by lia.
  destruct (String.length v) as [|n] eqn:Lv; [lia|].
  cbn [String.get] in B.
  destruct (String.get n v) as [b|] eqn:G; [|discriminate].
  apply Ascii.eqb_eq in B. subst b.
  cbn [String.substring]. replace (S n - 1)%nat with n by lia.
  simpl. f_equal. now apply snoc_of_last.
Qed.

Lemma bracketed_wrap (inner : string) :
  inner <> EmptyString ->
  bracketed ("[" ++ inner ++ "]") = true
  /\ slice ("[" ++ inner ++ "]") 1 (len ("[" ++ inner ++ "]") - 1) = inner.
Proof.
  intros N. change ("[" ++ inner ++ "]") with (String "[" (inner ++ "]")).
  unfold bracketed, byteIs, at_, slice, len.
  cbn [String.length]. rewrite len_append. cbn [String.length].
  replace (S (String.length inner + 1) - 1)%nat
    with (S (String.length inner)) by lia.
  replace (S (String.length inner) - 1)%nat
    with (String.length inner) by lia.
  cbn [String.get String.substring]. rewrite get_last, substring_all_app.
  rewrite Ascii.eqb_refl, !andb_true_r. split; [|reflexivity].
  apply Nat.ltb_lt. destruct inner; [congruence|simpl; lia].
Qed.

End StringFacts.

(** ** Facts about [parseAndSetEnv] *)

Section ParseFacts.

Import strings.

Variables (line : string) (lineNum : Z) (env : os.Environ).

Let reject (reason : string) : os.Environ * option error :=
  (env, Some (ErrParse {| Line := line; LineNum := lineNum;
                          Reason := reason |})).

(** A line without ['='] does not split in two. *)
Lemma parseAndSetEnv_unsplit :
  IndexByte line "=" = None ->
  parseAndSetEnv line lineNum env
  = reject "line must contain exactly one '=' character".
Proof.
  intros H. unfold parseAndSetEnv. now rewrite (SplitN_2_None _ _ H).
Qed.

(** The rest of the function once the line is split at byte [m]. *)
Lemma parseAndSetEnv_split (m : nat) :
  IndexByte line "=" = Some m ->
  parseAndSetEnv line lineNum env
  = let key := TrimSpace (slice line 0 m) in
    let value := TrimSpace (drop (m + 1) line) in
    if (key =? "")%string then reject "empty key is not allowed"
    else if Contains value "="
         then if bracketed value
              then if os.validSetenv key (slice value 1 (len value - 1))
                   then (<[key := slice value 1 (len value - 1)]> env, None)
                   else reject
                     "failed to set environment variable: setenv: invalid argument"
              else reject "invalid specific key-value pair"
         else if os.validSetenv key value
              then (<[key := value]> env, None)
              else reject
                "failed to set environment variable: setenv: invalid argument".
Proof.
  intros H. unfold parseAndSetEnv, bracketed, os.Setenv.
  rewrite (SplitN_2_Some _ _ _ H). cbv zeta.
  destruct (TrimSpace (slice line 0 m) =? "")%string; [reflexivity|].
  destruct (Contains (TrimSpace (drop (m + 1) line)) "=").
  - destruct (_ && _ && _); [|reflexivity].
    now destruct (os.validSetenv _ _).
  - now destruct (os.validSetenv _ _).
Qed.

End ParseFacts.

(** A line is either rejected, whatever the line number and the
    environment, or sets one variable. *)
Lemma parseAndSetEnv_shape (line : string) :
  (exists reason, forall lineNum env,
      parseAndSetEnv line lineNum env
      = (env, Some (ErrParse {| Line := line; LineNum := lineNum;
                                Reason := reason |})))
  \/ (exists key value, forall lineNum (env : os.Environ),
         parseAndSetEnv line lineNum env = (<[key := value]> env, None)).
Proof.
  destruct (strings.IndexByte line "=") as [m|] eqn:I.
  - pose proof (fun n e => parseAndSetEnv_split line n e m I) as P.
    cbv zeta in P.
    destruct (strings.TrimSpace (strings.slice line 0 m) =? "")%string;
      [left; eexists; intros; apply P|].
    destruct (strings.Contains _ "=").
    + destruct (bracketed _); [|left; eexists; intros; apply P].
      destruct (os.validSetenv _ _);
        [right; do 2 eexists; intros; apply P | left; eexists; intros; apply P].
    + destruct (os.validSetenv _ _);
        [right; do 2 eexists; intros; apply P | left; eexists; intros; apply P].
  - left. eexists. intros. now apply parseAndSetEnv_unsplit.
Qed.

(** [rejection] tells what [parseAndSetEnv] does at every line number and
    in every environment. *)
Lemma rejection_Some (line reason : string) (lineNum : Z) (env : os.Environ) :
  rejection line = Some reason ->
  parseAndSetEnv line lineNum env
  = (env, Some (ErrParse {| Line := line; LineNum := lineNum;
                            Reason := reason |})).
Proof.
  unfold rejection.
  destruct (parseAndSetEnv_shape line) as [(r & H)|(k & v & H)];
    rewrite H; [|discriminate].
  simpl. intros [= <-]. apply H.
Qed.

Lemma rejection_None (line : string) (lineNum : Z) (env : os.Environ) :
  rejection line = None ->
  parseAndSetEnv line lineNum env = (fst (parseAndSetEnv line 0 env), None).
Proof.
  unfold rejection.
  destruct (parseAndSetEnv_shape line) as [(r & H)|(k & v & H)];
    rewrite H; [discriminate|].
  intros _. now rewrite !H.
Qed.

(** A rejected line leaves the environment as it was. *)
Lemma parseAndSetEnv_error_env (line : string) (lineNum : Z)
    (env env' : os.Environ) (err : error) :
  parseAndSetEnv line lineNum env = (env', Some err) -> env' = env.
Proof.
  destruct (parseAndSetEnv_shape line) as [(r & H)|(k & v & H)];
    rewrite H; congruence.
Qed.

(** ** Bytes that trimming and slicing cannot introduce *)

Section Bytes.

Import strings.

Variable c : ascii.

Lemma IndexByte_None_cons (a : ascii) (s : string) :
  IndexByte (String a s) c = None ->
  Ascii.eqb a c = false /\ IndexByte s c = None.
Proof.
  simpl. destruct (Ascii.eqb a c); [discriminate|].
  now destruct (IndexByte s c).
Qed.

Lemma IndexByte_None_drop (n : nat) (s : string) :
  IndexByte s c = None -> IndexByte (drop n s) c = None.
Proof.
  revert s. induction n as [|n IH]; intros [|a s]; simpl; auto.
  intros H. apply IH. now apply (IndexByte_None_cons a s).
Qed.

Lemma IndexByte_None_substring (i n : nat) (s : string) :
  IndexByte s c = None -> IndexByte (String.substring i n s) c = None.
Proof.
  revert i n. induction s as [|a s IH]; intros i n H.
  - now destruct i, n.
  - destruct (IndexByte_None_cons a s H) as [E K].
    destruct i as [|i]; [destruct n as [|n]|]; simpl; auto.
    now rewrite E, (IH 0%nat n K).
Qed.

Lemma IndexByte_None_slice (lo hi : nat) (s : string) :
  IndexByte s c = None -> IndexByte (slice s lo hi) c = None.
Proof. apply IndexByte_None_substring. Qed.

Lemma IndexByte_None_trimLeft (fuel : nat) (s : string) :
  IndexByte s c = None -> IndexByte (trimLeft fuel s) c = None.
Proof.
  revert s. induction fuel as [|fuel IH]; intros s H; cbn [trimLeft]; auto.
  destruct (spaceWidth (head3 s)); auto.
  apply IH. now apply IndexByte_None_drop.
Qed.

Lemma IndexByte_None_trimRight (fuel : nat) (s : string) :
  IndexByte s c = None -> IndexByte (trimRight fuel s) c = None.
Proof.
  revert s. induction fuel as [|fuel IH]; intros s H; cbn [trimRight]; auto.
  destruct (lastSpaceWidth s); auto.
  apply IH. now apply IndexByte_None_slice.
Qed.

Lemma IndexByte_None_TrimSpace (s : string) :
  IndexByte s c = None -> IndexByte (TrimSpace s) c = None.
Proof.
  intros H. unfold TrimSpace.
  now apply IndexByte_None_trimRight, IndexByte_None_trimLeft.
Qed.

End Bytes.

(** A non-empty key cut before the first ['='] of a line of text, with a
    value cut from the same line, is one the environment accepts. *)
Lemma validSetenv_text (line : string) (m lo hi : nat) :
  strings.IndexByte line "=" = Some m ->
  noNUL line ->
  strings.TrimSpace (strings.slice line 0 m) <> "" ->
  os.validSetenv (strings.TrimSpace (strings.slice line 0 m))
    (strings.TrimSpace (strings.drop (m + 1) line)) = true
  /\ os.validSetenv (strings.TrimSpace (strings.slice line 0 m))
       (strings.slice (strings.TrimSpace (strings.drop (m + 1) line)) lo hi)
     = true.
Proof.
  intros I N K. unfold os.validSetenv, os.hasByte.
  destruct (IndexByte_Some _ _ _ I) as (_ & E & _).
  rewrite (IndexByte_None_TrimSpace _ _ E).
  rewrite (IndexByte_None_TrimSpace _ _
             (IndexByte_None_slice _ 0 m _ N)).
  rewrite (IndexByte_None_TrimSpace _ _ (IndexByte_None_drop _ (m + 1) _ N)).
  rewrite (IndexByte_None_slice _ lo hi _
             (IndexByte_None_TrimSpace _ _
                (IndexByte_None_drop _ (m + 1) _ N))).
  destruct (strings.TrimSpace (strings.slice line 0 m)); [congruence|].
  now split.
Qed.

(** ** Facts about the loop and the scanner *)

Lemma incr_no_wrap (n : Z) :
  (0 <= n < int.MaxInt)%Z -> int.incr n = (n + 1)%Z.
Proof.
  unfold int.incr, int.wrap, int.MaxInt. intros H.
  rewrite Z.mod_small; lia.
Qed.

(** One turn of the loop on a blank token. *)
Lemma scanLoop_blank (text : string) (tokens : list string) (lineNum : Z)
    (env : os.Environ) :
  strings.TrimSpace text = "" ->
  scanLoop (text :: tokens) lineNum env
  = scanLoop tokens (int.incr lineNum) env.
Proof. intros H. cbn [scanLoop]. now rewrite H. Qed.

(** One turn of the loop on a token that holds a line. *)
Lemma scanLoop_line (text : string) (tokens : list string) (lineNum : Z)
    (env : os.Environ) :
  strings.TrimSpace text <> "" ->
  scanLoop (text :: tokens) lineNum env
  = match parseAndSetEnv (strings.TrimSpace text) (int.incr lineNum) env with
    | (env', Some err) =>
        (env', Some (Errorf_w "failed to set environment variable: %w" err))
    | (env', None) => scanLoop tokens (int.incr lineNum) env'
    end.
Proof.
  intros H. cbn [scanLoop]. apply String.eqb_neq in H. now rewrite H.
Qed.

(** One turn of the loop on a well-formed token. *)
Lemma scanLoop_wellFormed (text : string) (tokens : list string) (lineNum : Z)
    (env : os.Environ) :
  wellFormed text ->
  scanLoop (text :: tokens) lineNum env
  = scanLoop tokens (int.incr lineNum) (applyLine env text).
Proof.
  intros W. unfold applyLine.
  destruct (String.eqb_spec (strings.TrimSpace text) "") as [E|E].
  - now apply scanLoop_blank.
  - destruct W as [W|W]; [contradiction|].
    rewrite (scanLoop_line _ _ _ _ E).
    now rewrite (rejection_None _ (int.incr lineNum) env W).
Qed.

(** A well-formed token changes nothing or sets one variable. *)
Lemma applyLine_wellFormed (text : string) :
  wellFormed text ->
  (strings.TrimSpace text = "" /\ forall env : os.Environ, applyLine env text = env)
  \/ (exists key value,
        forall env : os.Environ, applyLine env text = <[key := value]> env).
Proof.
  intros W. unfold applyLine.
  destruct (String.eqb_spec (strings.TrimSpace text) "") as [E|E];
    [now left|right].
  destruct W as [W|W]; [contradiction|]. unfold rejection in W.
  destruct (parseAndSetEnv_shape (strings.TrimSpace text))
    as [(r & H)|(k & v & H)]; [now rewrite H in W|].
  exists k, v. intros env. now rewrite H.
Qed.

(** The loop over a run of well-formed tokens applies each of them and
    counts them. *)
Lemma scanLoop_prefix (before tokens : list string) (lineNum : Z)
    (env : os.Environ) :
  Forall wellFormed before ->
  (0 <= lineNum)%Z ->
  (lineNum + Z.of_nat (length before) <= int.MaxInt)%Z ->
  scanLoop (before ++ tokens) lineNum env
  = scanLoop tokens (lineNum + Z.of_nat (length before))
      (applyLines before env).
Proof.
  intros W. revert lineNum env.
  induction W as [|text before Wt _ IH]; intros lineNum env H0 H1.
  - simpl. now rewrite Z.add_0_r.
  - cbn [length] in H1. rewrite <- app_comm_cons.
    rewrite (scanLoop_wellFormed _ _ _ _ Wt).
    rewrite incr_no_wrap by lia. rewrite IH by lia.
    cbn [applyLines fold_left length]. f_equal. lia.
Qed.

(** The line number changes neither the environment the loop leaves nor
    whether it fails. *)
Lemma scanLoop_lineNum (tokens : list string) (n m : Z) (env : os.Environ) :
  fst (scanLoop tokens n env) = fst (scanLoop tokens m env)
  /\ (snd (scanLoop tokens n env) = None
      <-> snd (scanLoop tokens m env) = None).
Proof.
  revert n m env. induction tokens as [|text tokens IH]; intros n m env.
  - now simpl.
  - destruct (String.eqb_spec (strings.TrimSpace text) "") as [E|E].
    + rewrite !(scanLoop_blank _ _ _ _ E). apply IH.
    + rewrite !(scanLoop_line _ _ _ _ E).
      destruct (parseAndSetEnv_shape (strings.TrimSpace text))
        as [(r & H)|(k & v & H)]; rewrite !H; [now simpl|apply IH].
Qed.

(** Every token uses up at least one byte of the input. *)
Lemma drop_len (n : nat) (s : string) :
  strings.len (strings.drop n s) = (strings.len s - n)%nat.
Proof.
  revert s. induction n as [|n IH]; intros [|a s]; simpl; auto.
Qed.

Lemma scan_tokens_le (fuel : nat) (data : string) :
  (length (fst (bufio.scan fuel data)) <= strings.len data)%nat.
Proof.
  revert data. induction fuel as [|fuel IH]; intros data; [simpl; lia|].
  cbn [bufio.scan]. unfold bufio.ScanLines.
  destruct data as [|a s]; [simpl; lia|].
  set (d := String a s).
  assert (L : (1 <= strings.len d)%nat) by (simpl; lia).
  destruct (strings.IndexByte d "010") as [i|] eqn:I.
  - destruct (bufio.MaxScanTokenSize <=? Z.of_nat i)%Z; [simpl; lia|].
    specialize (IH (strings.drop (i + 1) d)).
    destruct (bufio.scan fuel (strings.drop (i + 1) d)) as [ts e].
    rewrite drop_len in IH. simpl in *. lia.
  - destruct (bufio.MaxScanTokenSize <=? Z.of_nat (strings.len d))%Z;
      [simpl; lia|].
    specialize (IH (strings.drop (strings.len d) d)).
    destruct (bufio.scan fuel (strings.drop (strings.len d) d)) as [ts e].
    rewrite drop_len in IH. simpl in *. lia.
Qed.

(** ** The fuel of the recursive functions is enough *)

Lemma trimLeft_fuel (f1 f2 : nat) (s : string) :
  (strings.len s <= f1)%nat -> (strings.len s <= f2)%nat ->
  strings.trimLeft f1 s = strings.trimLeft f2 s.
Proof.
  revert f2 s. induction f1 as [|f1 IH]; intros [|f2] s L1 L2;
    try reflexivity.
  - apply Nat.le_0_r, len_0 in L1. now subst s.
  - apply Nat.le_0_r, len_0 in L2. now subst s.
  - cbn [strings.trimLeft].
    destruct (strings.spaceWidth (strings.head3 s)) as [|w]; [reflexivity|].
    apply IH; rewrite drop_len; lia.
Qed.

Lemma substring_0_len (n : nat) (s : string) :
  (String.length (String.substring 0 n s) <= n)%nat.
Proof.
  revert s. induction n as [|n IH]; intros [|a s]; simpl; try lia.
  specialize (IH s). lia.
Qed.

Lemma trimRight_fuel (f1 f2 : nat) (s : string) :
  (strings.len s <= f1)%nat -> (strings.len s <= f2)%nat ->
  strings.trimRight f1 s = strings.trimRight f2 s.
Proof.
  revert f2 s. induction f1 as [|f1 IH]; intros [|f2] s L1 L2;
    try reflexivity.
  - apply Nat.le_0_r, len_0 in L1. now subst s.
  - apply Nat.le_0_r, len_0 in L2. now subst s.
  - cbn [strings.trimRight].
    destruct (strings.lastSpaceWidth s) as [|w] eqn:W; [reflexivity|].
    assert (N : (1 <= strings.len s)%nat)
      by (destruct s; [discriminate|simpl; lia]).
    pose proof (substring_0_len (strings.len s - S w) s) as B.
    apply IH; rewrite slice_0; unfold strings.len in *; lia.
Qed.

Lemma scan_fuel (f1 f2 : nat) (data : string) :
  (strings.len data <= f1)%nat -> (strings.len data <= f2)%nat ->
  bufio.scan f1 data = bufio.scan f2 data.
Proof.
  revert f2 data. induction f1 as [|f1 IH]; intros [|f2] data L1 L2;
    try reflexivity.
  - apply Nat.le_0_r, len_0 in L1. now subst data.
  - apply Nat.le_0_r, len_0 in L2. now subst data.
  - cbn [bufio.scan]. unfold bufio.ScanLines.
    destruct data as [|a s]; [reflexivity|].
    set (d := String a s) in *.
    assert (N : (1 <= strings.len d)%nat) by (simpl; lia).
    destruct (strings.IndexByte d "010") as [i|].
    + destruct (_ <=? _)%Z; [reflexivity|].
      rewrite (IH f2); [reflexivity|rewrite drop_len; lia..].
    + destruct (_ <=? _)%Z; [reflexivity|].
      rewrite (IH f2); [reflexivity|rewrite drop_len; lia..].
Qed.

Lemma newScanner_tokens_le (content : string) :
  (length (bufio.Tokens (newScanner content)) <= strings.len content)%nat.
Proof.
  unfold newScanner, bufio.NewScanner.
  pose proof (scan_tokens_le (strings.len content) content) as H.
  now destruct (bufio.scan (strings.len content) content).
Qed.

(** A string of ASCII white space trims to the empty string. *)
Lemma trimLeft_allSpace (fuel : nat) (s : string) :
  allSpace s = true -> (strings.len s <= fuel)%nat ->
  strings.trimLeft fuel s = "".
Proof.
  revert s. induction fuel as [|fuel IH]; intros [|a s] H L;
    try reflexivity; [simpl in L; lia|].
  cbn [allSpace] in H. apply andb_true_iff in H as [A S'].
  assert (W : strings.spaceWidth (strings.head3 (String a s)) = 1%nat).
  { destruct s as [|b [|c0 s]]; simpl; now rewrite ascii_nat_embedding, A. }
  cbn [strings.trimLeft]. rewrite W. cbn [strings.drop].
  apply IH; [exact S'|simpl in L; lia].
Qed.

Lemma TrimSpace_allSpace (s : string) :
  allSpace s = true -> strings.TrimSpace s = "".
Proof.
  intros H. unfold strings.TrimSpace.
  now rewrite (trimLeft_allSpace _ _ H (le_n _)).
Qed.

Lemma bracketed_Wrapped (value : string) :
  bracketed value = true <-> Wrapped value.
Proof.
  unfold bracketed, Wrapped, byteIs.
  rewrite !andb_true_iff, Nat.ltb_lt.
  destruct (strings.at_ value 0) as [a|], (strings.at_ value _) as [b|];
    rewrite ?Ascii.eqb_eq; intuition congruence.
Qed.

Lemma Getenv_empty (key : string) (env : os.Environ) :
  os.Getenv key env = "" <-> unset key env.
Proof.
  unfold os.Getenv, unset. destruct (env !! key) as [v|]; simpl.
  - split; [intros ->; now right | intros [H|H]; congruence].
  - split; [now left | reflexivity].
Qed.

Lemma append_nil_r (s : string) : s ++ "" = s.
Proof.
  induction s as [|a s IH]; [reflexivity|]. now rewrite append_cons, IH.
Qed.

(** The format of [GetSecret] prints the resource name. *)
Lemma Sprintf_resourceName (cfg : Config) :
  fmt.Sprintf "projects/%s/secrets/%s/versions/%s"
    [fmt.Str (ProjectID cfg); fmt.Str (SecretName cfg);
     fmt.Str (SecretVersion cfg)]
  = resourceName cfg.
Proof.
  unfold resourceName.
  rewrite <- (append_nil_r (SecretVersion cfg)) at 2. reflexivity.
Qed.

(** The text of an error made by [fmt.Errorf] with a constant format. *)
Ltac errorf_text :=
  unfold Errorf_w; cbn [Error fmt.Sprintf fmt.render];
  rewrite ?append_nil_r.

Lemma Errorf_w_access (cause : error) :
  Error (Errorf_w "failed to access secret: %w" cause)
  = "failed to access secret: " ++ Error cause.
Proof. errorf_text. reflexivity. Qed.

Lemma Errorf_w_setenv (cause : error) :
  Error (Errorf_w "failed to set environment variable: %w" cause)
  = "failed to set environment variable: " ++ Error cause.
Proof. errorf_text. reflexivity. Qed.

(** ** Cutting a text at a byte *)

(** A text cut at a byte that its front does not hold is cut at the first
    such byte. *)
Lemma IndexByte_cut (l r : string) (c : ascii) :
  strings.IndexByte l c = None ->
  strings.IndexByte (l ++ String c r) c = Some (strings.len l)
  /\ strings.slice (l ++ String c r) 0 (strings.len l) = l
  /\ strings.drop (strings.len l + 1) (l ++ String c r) = r.
Proof.
  induction l as [|a l IH]; intros N.
  - rewrite append_nil. cbn [strings.IndexByte strings.len String.length].
    rewrite Ascii.eqb_refl. now rewrite slice_0.
  - destruct (IndexByte_None_cons c a l N) as [E K].
    destruct (IH K) as (I & S & D). rewrite append_cons.
    cbn [strings.IndexByte strings.len String.length]. rewrite E.
    unfold strings.len in *. rewrite I. cbn [option_map].
    rewrite slice_0_cons, S. repeat split. exact D.
Qed.

(** [parseAndSetEnv] works on the two parts of the line around its first
    ['=']. *)
Lemma parseAndSetEnv_raw (line rawKey rawValue : string) (lineNum : Z)
    (env : os.Environ) :
  line = rawKey ++ "=" ++ rawValue ->
  strings.IndexByte rawKey "=" = None ->
  strings.SplitN line "=" 2 = [rawKey; rawValue]
  /\ parseAndSetEnv line lineNum env
     = setRawEntry line lineNum rawKey rawValue env.
Proof.
  intros E N.
  change ("=" ++ rawValue) with (String "=" rawValue) in E.
  destruct (IndexByte_cut rawKey rawValue "=" N) as (I & S & D).
  rewrite <- E in I, S, D. split.
  - now rewrite (SplitN_2_Some _ _ _ I), S, D.
  - rewrite (parseAndSetEnv_split _ _ _ _ I), S, D. reflexivity.
Qed.

(** ** Carriage returns *)

Lemma asciiSpace_CR : strings.asciiSpace "013" = true.
Proof. reflexivity. Qed.

Lemma spaceWidth_two_CR (a : nat) :
  strings.spaceWidth [a; 13%nat] = strings.spaceWidth [a].
Proof.
  unfold strings.spaceWidth.
  destruct (strings.asciiSpace (ascii_of_nat a)); [reflexivity|].
  change ((13 =? 133) || (13 =? 160))%nat with false.
  now rewrite andb_false_r.
Qed.

Lemma spaceWidth_three_CR (a b : nat) :
  strings.spaceWidth [a; b; 13%nat] = strings.spaceWidth [a; b].
Proof.
  unfold strings.spaceWidth.
  destruct (strings.asciiSpace (ascii_of_nat a)); [reflexivity|].
  destruct ((a =? 194) && ((b =? 133) || (b =? 160)))%nat; [reflexivity|].
  change (13 =? 128)%nat with false. change (13 =? 159)%nat with false.
  change (((128 <=? 13) && (13 <=? 138)) || (13 =? 168) || (13 =? 169)
          || (13 =? 175))%nat with false.
  now rewrite !andb_false_r.
Qed.

(** A carriage return after a text that is not empty does not change the
    rune the text starts with. *)
Lemma head3_snoc_CR (s : string) :
  s <> "" ->
  strings.spaceWidth (strings.head3 (s ++ String "013" ""))
  = strings.spaceWidth (strings.head3 s).
Proof.
  intros N. destruct s as [|a [|b [|c s]]]; [congruence|..].
  - apply spaceWidth_two_CR.
  - apply spaceWidth_three_CR.
  - reflexivity.
Qed.

Lemma spaceWidth_le (s : string) :
  (strings.spaceWidth (strings.head3 s) <= strings.len s)%nat.
Proof.
  destruct s as [|a [|b [|c s]]]; cbn [strings.head3 strings.len String.length];
    unfold strings.spaceWidth;
    repeat match goal with
           | |- context [if ?b then _ else _] => destruct b
           end; lia.
Qed.

Lemma drop_app (n : nat) (s t : string) :
  (n <= strings.len s)%nat ->
  strings.drop n (s ++ t) = strings.drop n s ++ t.
Proof.
  revert s. induction n as [|n IH]; intros s L; [reflexivity|].
  destruct s as [|a s]; [simpl in L; lia|].
  rewrite append_cons. cbn [strings.drop]. apply IH. simpl in L. lia.
Qed.

Lemma trimLeft_empty (fuel : nat) : strings.trimLeft fuel "" = "".
Proof. now destruct fuel. Qed.

Lemma trimLeft_S (fuel : nat) (s : string) :
  strings.trimLeft (S fuel) s
  = match strings.spaceWidth (strings.head3 s) with
    | O => s
    | S n => strings.trimLeft fuel (strings.drop (S n) s)
    end.
Proof. reflexivity. Qed.

Lemma trimLeft_snoc_CR (fuel : nat) (s : string) :
  (strings.len s <= fuel)%nat ->
  strings.trimLeft (S fuel) (s ++ String "013" "")
  = if (strings.trimLeft fuel s =? "")%string then ""
    else strings.trimLeft fuel s ++ String "013" "".
Proof.
  revert s. induction fuel as [|fuel IH]; intros s L.
  - apply Nat.le_0_r, len_0 in L. now subst s.
  - destruct s as [|a s]; [reflexivity|].
    set (t := String a s) in *.
    assert (NE : t <> "") by discriminate.
    rewrite (trimLeft_S (S fuel) (t ++ String "013" "")), (trimLeft_S fuel t).
    rewrite (head3_snoc_CR t NE).
    pose proof (spaceWidth_le t) as W.
    destruct (strings.spaceWidth (strings.head3 t)) as [|w] eqn:E.
    + reflexivity.
    + rewrite (drop_app _ _ _ W). apply IH. rewrite drop_len. lia.
Qed.

(** The last bytes of a text that ends with a carriage return. *)
Lemma last3_snoc_CR (u : string) :
  exists front, strings.last3 (u ++ String "013" "") = (front ++ [13%nat])%list
                /\ (length front <= 2)%nat.
Proof.
  induction u as [|x u (front & IH & L)].
  - exists []. split; [reflexivity|simpl; lia].
  - rewrite append_cons.
    destruct u as [|y [|z u]].
    + exists [nat_of_ascii x]. split; [reflexivity|simpl; lia].
    + exists [nat_of_ascii x; nat_of_ascii y]. split; [reflexivity|simpl; lia].
    + exists front. split; [|exact L]. rewrite <- IH.
      rewrite !append_cons. now destruct u.
Qed.

Lemma lastSpaceWidth_snoc_CR (u : string) :
  strings.lastSpaceWidth (u ++ String "013" "") = 1%nat.
Proof.
  unfold strings.lastSpaceWidth.
  destruct (last3_snoc_CR u) as (front & -> & L).
  destruct front as [|a [|b [|c front]]]; [reflexivity..|simpl in L; lia].
Qed.

Lemma len_snoc (s : string) (c : ascii) :
  strings.len (s ++ String c "") = S (strings.len s).
Proof. unfold strings.len. rewrite len_append. simpl. lia. Qed.

Lemma trimRight_snoc_CR (fuel : nat) (u : string) :
  strings.trimRight (S fuel) (u ++ String "013" "") = strings.trimRight fuel u.
Proof.
  cbn [strings.trimRight]. rewrite lastSpaceWidth_snoc_CR.
  rewrite slice_0, len_snoc.
  replace (S (strings.len u) - 1)%nat with (String.length u)
    by (unfold strings.len; lia).
  now rewrite substring_all_app.
Qed.

(** A carriage return at the end of a text is trimmed with the rest of its
    white space. *)
Lemma TrimSpace_snoc_CR (s : string) :
  strings.TrimSpace (s ++ String "013" "") = strings.TrimSpace s.
Proof.
  unfold strings.TrimSpace. rewrite len_snoc.
  rewrite (trimLeft_snoc_CR _ s (le_n _)).
  destruct (String.eqb_spec (strings.trimLeft (strings.len s) s) "")
    as [E|E].
  - now rewrite E.
  - rewrite len_snoc. apply trimRight_snoc_CR.
Qed.

(** The carriage return the scanner drops would have been trimmed. *)
Lemma TrimSpace_dropCR (data : string) :
  strings.TrimSpace (bufio.dropCR data) = strings.TrimSpace data.
Proof.
  unfold bufio.dropCR.
  destruct (strings.len data) as [|n] eqn:L; [reflexivity|].
  destruct (strings.at_ data n) as [c|] eqn:G; [|reflexivity].
  destruct (Ascii.eqb_spec c "013") as [->|N]; [|reflexivity].
  rewrite (snoc_of_last data n "013" L G) at 2.
  rewrite TrimSpace_snoc_CR. now rewrite slice_0.
Qed.

Lemma wellFormed_dropCR (l : string) :
  wellFormed (bufio.dropCR l) <-> wellFormed l.
Proof. unfold wellFormed. now rewrite TrimSpace_dropCR. Qed.

Lemma malformed_dropCR (l : string) :
  malformed (bufio.dropCR l) <-> malformed l.
Proof. unfold malformed. now rewrite TrimSpace_dropCR. Qed.

Lemma applyLine_dropCR (env : os.Environ) (l : string) :
  applyLine env (bufio.dropCR l) = applyLine env l.
Proof. unfold applyLine. now rewrite TrimSpace_dropCR. Qed.

Lemma applyLines_dropCR (lines : list string) (env : os.Environ) :
  applyLines (map bufio.dropCR lines) env = applyLines lines env.
Proof.
  revert env. induction lines as [|l lines IH]; intros env; [reflexivity|].
  cbn [map applyLines fold_left]. rewrite applyLine_dropCR. apply IH.
Qed.

Lemma Forall_wellFormed_dropCR (lines : list string) :
  Forall wellFormed (map bufio.dropCR lines) <-> Forall wellFormed lines.
Proof.
  rewrite Forall_map. apply Forall_iff. intros l. apply wellFormed_dropCR.
Qed.

(** ** The scanner, line by line *)

Lemma drop_all (s : string) : strings.drop (strings.len s) s = "".
Proof. induction s as [|a s IH]; [reflexivity|exact IH]. Qed.

Lemma scan_empty (fuel : nat) : bufio.scan fuel "" = ([], None).
Proof. now destruct fuel. Qed.

(** The scanner on a line that ends with a newline. *)
Lemma scan_line (fuel : nat) (l rest : string) :
  noNewline l ->
  (strings.len rest <= fuel)%nat ->
  bufio.scan (S fuel) (l ++ String "010" rest)
  = if (bufio.MaxScanTokenSize <=? Z.of_nat (strings.len l))%Z
    then ([], Some bufio.ErrTooLong)
    else (bufio.dropCR l :: fst (bufio.scan (strings.len rest) rest),
          snd (bufio.scan (strings.len rest) rest)).
Proof.
  intros N L. destruct (IndexByte_cut l rest "010" N) as (I & S & D).
  cbn [bufio.scan]. unfold bufio.ScanLines. rewrite I.
  assert (NE : l ++ String "010" rest <> "") by (destruct l; discriminate).
  destruct (l ++ String "010" rest) as [|a d] eqn:E; [congruence|].
  rewrite <- E in *. rewrite S, D.
  destruct (_ <=? _)%Z; [reflexivity|].
  rewrite (scan_fuel fuel (strings.len rest) rest L (le_n _)).
  now destruct (bufio.scan (strings.len rest) rest).
Qed.

(** The scanner on a last line without a newline. *)
Lemma scan_last (fuel : nat) (l : string) :
  noNewline l -> l <> "" ->
  bufio.scan (S fuel) l
  = if (bufio.MaxScanTokenSize <=? Z.of_nat (strings.len l))%Z
    then ([], Some bufio.ErrTooLong)
    else ([bufio.dropCR l], None).
Proof.
  intros N NE. cbn [bufio.scan]. unfold bufio.ScanLines.
  unfold noNewline in N. rewrite N.
  destruct l as [|a d] eqn:E; [congruence|]. rewrite <- E in *.
  destruct (_ <=? _)%Z; [reflexivity|].
  now rewrite drop_all, scan_empty.
Qed.

Lemma len_line (l rest : string) :
  strings.len (l ++ String "010" rest)
  = S (strings.len l + strings.len rest).
Proof. unfold strings.len. rewrite len_append. simpl. lia. Qed.

Lemma newScanner_line (l rest : string) :
  noNewline l ->
  newScanner (l ++ String "010" rest)
  = if (bufio.MaxScanTokenSize <=? Z.of_nat (strings.len l))%Z
    then {| bufio.Tokens := []; bufio.Err := Some bufio.ErrTooLong |}
    else {| bufio.Tokens := bufio.dropCR l :: bufio.Tokens (newScanner rest);
            bufio.Err := bufio.Err (newScanner rest) |}.
Proof.
  intros N. unfold newScanner, bufio.NewScanner.
  rewrite len_line, (scan_line _ l rest N) by lia.
  destruct (_ <=? _)%Z; [reflexivity|].
  now destruct (bufio.scan (strings.len rest) rest).
Qed.

Lemma newScanner_last (l : string) :
  noNewline l -> l <> "" ->
  newScanner l
  = if (bufio.MaxScanTokenSize <=? Z.of_nat (strings.len l))%Z
    then {| bufio.Tokens := []; bufio.Err := Some bufio.ErrTooLong |}
    else {| bufio.Tokens := [bufio.dropCR l]; bufio.Err := None |}.
Proof.
  intros N NE. unfold newScanner, bufio.NewScanner.
  destruct (strings.len l) as [|n] eqn:L; [apply len_0 in L; congruence|].
  rewrite (scan_last n l N NE), L.
  now destruct (_ <=? _)%Z.
Qed.

(** The scanner over lines it can yield, and then the rest. *)
Lemma newScanner_joinLines (lines : list string) (rest : string) :
  Forall shortLine lines ->
  bufio.Tokens (newScanner (joinLines lines rest))
  = (map bufio.dropCR lines ++ bufio.Tokens (newScanner rest))%list
  /\ bufio.Err (newScanner (joinLines lines rest))
     = bufio.Err (newScanner rest).
Proof.
  induction 1 as [|l lines [N B] _ [IHt IHe]]; [now split|].
  cbn [joinLines fold_right]. fold (joinLines lines rest).
  rewrite (newScanner_line _ _ N).
  destruct (Z.leb_spec bufio.MaxScanTokenSize (Z.of_nat (strings.len l)));
    [lia|].
  cbn [bufio.Tokens bufio.Err map]. rewrite IHt, IHe. now split.
Qed.

(** A scanner that reports an error stopped at a line that is too long:
    the text is the lines it yielded and then that line. *)
Lemma scan_error_inv (fuel : nat) (data : string) (e : error) :
  snd (bufio.scan fuel data) = Some e ->
  e = bufio.ErrTooLong
  /\ exists before tail,
      data = joinLines before tail
      /\ Forall shortLine before
      /\ fst (bufio.scan fuel data) = map bufio.dropCR before
      /\ (bufio.MaxScanTokenSize <= Z.of_nat (lineLen tail))%Z.
Proof.
  revert data. induction fuel as [|fuel IH]; intros data H; [discriminate|].
  cbn [bufio.scan] in *. unfold bufio.ScanLines in *.
  destruct data as [|a s]; [discriminate|]. set (d := String a s) in *.
  destruct (strings.IndexByte d "010") as [i|] eqn:I.
  - destruct (Z.leb_spec bufio.MaxScanTokenSize (Z.of_nat i)) as [Long|Short].
    + injection H as <-. split; [reflexivity|]. exists [], d.
      split; [reflexivity|]. split; [constructor|]. split; [reflexivity|].
      unfold lineLen. now rewrite I.
    + destruct (IndexByte_Some _ _ _ I) as (E & N & Len).
      destruct (bufio.scan fuel (strings.drop (i + 1) d)) as [ts e'] eqn:Sc.
      cbn [snd fst] in *. subst e'.
      destruct (IH (strings.drop (i + 1) d)) as (-> & before & tail & J & F
                                                 & T & Long);
        [now rewrite Sc|].
      rewrite Sc in T. cbn [fst] in T.
      split; [reflexivity|]. exists (strings.slice d 0 i :: before), tail.
      split; [cbn [joinLines fold_right]; fold (joinLines before tail);
              now rewrite <- J|].
      split; [|split; [now rewrite T|exact Long]].
      constructor; [|exact F]. split; [exact N|].
      assert (Li : strings.len (strings.slice d 0 i) = i).
      { pose proof (f_equal strings.len E) as E'.
        rewrite len_line in E'. lia. }
      rewrite Li. exact Short.
  - destruct (Z.leb_spec bufio.MaxScanTokenSize (Z.of_nat (strings.len d)))
      as [Long|Short].
    + injection H as <-. split; [reflexivity|]. exists [], d.
      split; [reflexivity|]. split; [constructor|]. split; [reflexivity|].
      unfold lineLen. now rewrite I.
    + rewrite drop_all, scan_empty in H. discriminate.
Qed.

Lemma newScanner_error_inv (content : string) (e : error) :
  bufio.Err (newScanner content) = Some e ->
  e = bufio.ErrTooLong
  /\ exists before tail,
      content = joinLines before tail
      /\ Forall shortLine before
      /\ bufio.Tokens (newScanner content) = map bufio.dropCR before
      /\ (bufio.MaxScanTokenSize <= Z.of_nat (lineLen tail))%Z.
Proof.
  unfold newScanner, bufio.NewScanner.
  pose proof (scan_error_inv (strings.len content) content e) as P.
  destruct (bufio.scan (strings.len content) content) as [ts err].
  exact P.
Qed.

(** The scanner on a text with and without one short line: the same
    error, and the same tokens but for that line. *)
Lemma newScanner_without_line (before : list string) (l tail tail' : string) :
  Forall noNewline before ->
  shortLine l ->
  tail = l ++ String "010" tail' \/ (tail = l /\ tail' = "") ->
  bufio.Err (newScanner (joinLines before tail))
  = bufio.Err (newScanner (joinLines before tail'))
  /\ (bufio.Tokens (newScanner (joinLines before tail))
      = bufio.Tokens (newScanner (joinLines before tail'))
      \/ exists b a,
          bufio.Tokens (newScanner (joinLines before tail))
          = (b ++ bufio.dropCR l :: a)%list
          /\ bufio.Tokens (newScanner (joinLines before tail'))
             = (b ++ a)%list).
Proof.
  intros F [N B] T.
  assert (Short : (bufio.MaxScanTokenSize <=? Z.of_nat (strings.len l))%Z
                  = false) by (apply Z.leb_gt; exact B).
  induction F as [|x before Nx _ [IHe IHt]].
  - cbn [joinLines fold_right]. destruct T as [->|[-> ->]].
    + rewrite (newScanner_line _ _ N), Short. cbn [bufio.Tokens bufio.Err].
      split; [reflexivity|]. right. now exists [], (bufio.Tokens (newScanner tail')).
    + destruct (String.eqb_spec l "") as [->|NE]; [split; [reflexivity|now left]|].
      rewrite (newScanner_last _ N NE), Short.
      split; [reflexivity|]. right. now exists [], [].
  - cbn [joinLines fold_right].
    fold (joinLines before tail). fold (joinLines before tail').
    rewrite !(newScanner_line _ _ Nx).
    destruct (bufio.MaxScanTokenSize <=? Z.of_nat (strings.len x))%Z;
      [split; [reflexivity|now left]|].
    cbn [bufio.Tokens bufio.Err]. split; [exact IHe|].
    destruct IHt as [->|(b & a & -> & ->)]; [now left|right].
    now exists (bufio.dropCR x :: b), a.
Qed.

(** What a load returns, from what its loop returns. *)
Lemma LoadSecretToEnv_of_loop (c : Client) (content : string)
    (env : os.Environ) :
  GetSecret c = Ok content ->
  fst (LoadSecretToEnv c env)
  = fst (scanLoop (bufio.Tokens (newScanner content)) 0 env)
  /\ (snd (LoadSecretToEnv c env) = None
      <-> snd (scanLoop (bufio.Tokens (newScanner content)) 0 env) = None
          /\ bufio.Err (newScanner content) = None).
Proof.
  intros G. unfold LoadSecretToEnv. rewrite G.
  destruct (scanLoop _ 0 env) as [e [err|]]; cbn [fst snd].
  - split; [reflexivity|]. split; [discriminate|intros [H _]; discriminate].
  - destruct (bufio.Err _); cbn [fst snd]; split; try reflexivity;
      split; try discriminate; try tauto. intros [_ H]. discriminate.
Qed.

(** The loop with and without a blank token. *)
Lemma scanLoop_without_blank (text : string) (before after : list string)
    (lineNum : Z) (env : os.Environ) :
  strings.TrimSpace text = "" ->
  fst (scanLoop (before ++ text :: after)%list lineNum env)
  = fst (scanLoop (before ++ after)%list lineNum env)
  /\ (snd (scanLoop (before ++ text :: after)%list lineNum env) = None
      <-> snd (scanLoop (before ++ after)%list lineNum env) = None).
Proof.
  intros E. revert lineNum env.
  induction before as [|t before IH]; intros lineNum env.
  - cbn [app]. rewrite (scanLoop_blank _ _ _ _ E). apply scanLoop_lineNum.
  - rewrite <- !app_comm_cons.
    destruct (String.eqb_spec (strings.TrimSpace t) "") as [B|B].
    + rewrite !(scanLoop_blank _ _ _ _ B). apply IH.
    + rewrite !(scanLoop_line _ _ _ _ B).
      destruct (parseAndSetEnv (strings.TrimSpace t) (int.incr lineNum) env)
        as [env' [err|]]; [now simpl|apply IH].
Qed.

(** A load with and without one short blank line. *)
Lemma LoadSecretToEnv_without_blank (c c' : Client) (env : os.Environ)
    (before : list string) (text tail tail' : string) :
  strings.TrimSpace text = "" ->
  shortLine text ->
  Forall noNewline before ->
  tail = text ++ String "010" tail' \/ (tail = text /\ tail' = "") ->
  GetSecret c = Ok (joinLines before tail) ->
  GetSecret c' = Ok (joinLines before tail') ->
  fst (LoadSecretToEnv c env) = fst (LoadSecretToEnv c' env)
  /\ (snd (LoadSecretToEnv c env) = None
      <-> snd (LoadSecretToEnv c' env) = None).
Proof.
  intros E S F T G G'.
  destruct (LoadSecretToEnv_of_loop c _ env G) as [F1 S1].
  destruct (LoadSecretToEnv_of_loop c' _ env G') as [F2 S2].
  destruct (newScanner_without_line before text tail tail' F S T)
    as [Er [Tk|(b & a & Tk & Tk')]].
  - rewrite F1, F2, S1, S2, Tk, Er. now split.
  - rewrite <- (TrimSpace_dropCR text) in E.
    destruct (scanLoop_without_blank _ b a 0 env E) as [L1 L2].
    rewrite F1, F2, S1, S2, Tk, Tk', Er, L1, L2. now split.
Qed.

(** The load of a secret whose tokens are well-formed up to a malformed
    one. *)
Lemma LoadSecretToEnv_tokens_first_malformed (c : Client)
    (content : string) (env : os.Environ)
    (before after : list string) (bad : string) :
  GetSecret c = Ok content ->
  (Z.of_nat (strings.len content) <= int.MaxInt)%Z ->
  bufio.Tokens (newScanner content) = (before ++ bad :: after)%list ->
  Forall wellFormed before ->
  malformed bad ->
  exists reason,
    LoadSecretToEnv c env
    = (applyLines before env,
       Some (Errorf_w "failed to set environment variable: %w"
          (ErrParse {| Line := strings.TrimSpace bad;
                       LineNum := Z.of_nat (length before) + 1;
                       Reason := reason |})))
    /\ rejection (strings.TrimSpace bad) = Some reason.
Proof.
  intros G L T W [NE R].
  destruct (rejection (strings.TrimSpace bad)) as [reason|] eqn:Rj;
    [clear R|contradiction].
  pose proof (newScanner_tokens_le content) as Len.
  rewrite T, length_app in Len. cbn [length] in Len.
  exists reason. split; [|reflexivity].
  unfold LoadSecretToEnv. rewrite G, T.
  rewrite scanLoop_prefix by (auto; lia).
  rewrite scanLoop_line by exact NE.
  rewrite incr_no_wrap by lia.
  now rewrite (rejection_Some _ _ _ _ Rj).
Qed.

(** ** The cases of the package's tests *)

Example load_valid_configuration :
  LoadSecretToEnv (mockClient "FOO=bar" true) ∅ = (<["FOO" := "bar"]> ∅, None).
Proof. reflexivity. Qed.

Example load_fails_to_access :
  option_map Error (snd (LoadSecretToEnv (mockClient "" false) ∅))
  = Some "failed to retrieve secret: failed to access secret: access error".
Proof. reflexivity. Qed.

Example load_fails_to_set :
  option_map Error (snd (LoadSecretToEnv (mockClient "FOO=bar=baz" true) ∅))
  = Some "failed to set environment variable: invalid format at line 1 (FOO=bar=baz): invalid specific key-value pair".
Proof. reflexivity. Qed.

Example new_config_missing_project :
  option_map Error
    (match NewSecret (Ok (mockSecretManagerClient "" true)) ∅ with
     | Ok _ => None
     | Fail err => Some err
     end)
  = Some "failed to create config: missing required environment variable: GCP_PROJECT_ID".
Proof. reflexivity. Qed.

Example scan_lines :
  newScanner "A=1
B=2

C=3
" = {| bufio.Tokens := ["A=1"; "B=2"; ""; "C=3"]; bufio.Err := None |}.
Proof. reflexivity. Qed.

Example trim_unicode_space :
  strings.TrimSpace
    (String (ascii_of_nat 194) (String (ascii_of_nat 160) " a b  "))
  = "a b".
Proof. reflexivity. Qed.

(** * The claims *)

(** C4: a line without ['='] is refused by [parseAndSetEnv] with a
    [ParseError] that carries the line, the line number it was given and
    the reason "line must contain exactly one '=' character"; a line with
    at least one ['='] is cut at its first ['='] only, into a raw key
    without ['='] and a raw value that keeps every later ['='], and what
    [parseAndSetEnv] does with the line is what it does with these two
    parts; and the loop of [LoadSecretToEnv] numbers the lines from 1. *)
Theorem parseAndSetEnv_needs_separator (line : string) (lineNum : Z)
    (env : os.Environ) :
  (strings.Contains line "=" = false ->
   parseAndSetEnv line lineNum env
   = (env, Some (ErrParse
        {| Line := line; LineNum := lineNum;
           Reason := "line must contain exactly one '=' character" |})))
  /\ (strings.Contains line "=" = true ->
      exists rawKey rawValue,
        line = rawKey ++ "=" ++ rawValue
        /\ strings.Contains rawKey "=" = false)
  /\ (forall rawKey rawValue,
        line = rawKey ++ "=" ++ rawValue ->
        strings.Contains rawKey "=" = false ->
        strings.SplitN line "=" 2 = [rawKey; rawValue]
        /\ parseAndSetEnv line lineNum env
           = setRawEntry line lineNum rawKey rawValue env)
  /\ (forall text tokens,
        strings.TrimSpace text = line -> line <> "" ->
        strings.Contains line "=" = false ->
        scanLoop (text :: tokens) 0 env
        = (env, Some (Errorf_w "failed to set environment variable: %w"
             (ErrParse
                {| Line := line; LineNum := 1;
                   Reason := "line must contain exactly one '=' character" |})))).
Proof.
  split; [|split; [|split]].
  - rewrite Contains_byte. unfold os.hasByte.
    destruct (strings.IndexByte line "=") eqn:I; [discriminate|].
    intros _. now apply parseAndSetEnv_unsplit.
  - rewrite Contains_byte. unfold os.hasByte.
    destruct (strings.IndexByte line "=") as [m|] eqn:I; [|discriminate].
    intros _. destruct (IndexByte_Some _ _ _ I) as (E & N & _).
    exists (strings.slice line 0 m), (strings.drop (m + 1) line).
    rewrite Contains_byte. unfold os.hasByte. rewrite N.
    split; [exact E|reflexivity].
  - intros rawKey rawValue E N. apply parseAndSetEnv_raw; [exact E|].
    rewrite Contains_byte in N. unfold os.hasByte in N.
    now destruct (strings.IndexByte rawKey "=").
  - intros text tokens T NE C.
    rewrite Contains_byte in C. unfold os.hasByte in C.
    destruct (strings.IndexByte line "=") eqn:I; [discriminate|].
    rewrite scanLoop_line by (rewrite T; exact NE).
    rewrite T. now rewrite parseAndSetEnv_unsplit.
Qed.

Lemma parseAndSetEnv_needs_separator_witness :
  parseAndSetEnv "FOO" 7 ∅
  = (∅, Some (ErrParse
       {| Line := "FOO"; LineNum := 7;
          Reason := "line must contain exactly one '=' character" |}))
  /\ (exists rawKey rawValue,
        "A=[b=c]" = rawKey ++ "=" ++ rawValue
        /\ strings.Contains rawKey "=" = false)
  /\ strings.SplitN "A=[b=c]" "=" 2 = ["A"; "[b=c]"]
  /\ parseAndSetEnv "A=[b=c]" 7 ∅ = setRawEntry "A=[b=c]" 7 "A" "[b=c]" ∅.
Proof.
  split; [|split].
  - apply (proj1 (parseAndSetEnv_needs_separator "FOO" 7 ∅)). reflexivity.
  - apply (proj1 (proj2 (parseAndSetEnv_needs_separator "A=[b=c]" 7 ∅))).
    reflexivity.
  - apply (proj1 (proj2 (proj2
             (parseAndSetEnv_needs_separator "A=[b=c]" 7 ∅)))
             "A" "[b=c]"); reflexivity.
Defined.

(** C5: a line with a ['='] whose key part, once trimmed, is empty (such as
    "=value") is refused with the reason "empty key is not allowed", and
    the environment is left as it was. *)
Theorem parseAndSetEnv_empty_key (line : string) (lineNum : Z)
    (env : os.Environ) (m : nat) :
  strings.IndexByte line "=" = Some m ->
  strings.TrimSpace (strings.slice line 0 m) = "" ->
  parseAndSetEnv line lineNum env
  = (env, Some (ErrParse {| Line := line; LineNum := lineNum;
                            Reason := "empty key is not allowed" |})).
Proof.
  intros I K. rewrite (parseAndSetEnv_split _ _ _ _ I). cbv zeta.
  now rewrite K.
Qed.

Lemma parseAndSetEnv_empty_key_witness :
  parseAndSetEnv "=value" 1 ∅
  = (∅, Some (ErrParse {| Line := "=value"; LineNum := 1;
                          Reason := "empty key is not allowed" |})).
Proof.
  apply (parseAndSetEnv_empty_key "=value" 1 ∅ 0); reflexivity.
Defined.

(** C6: [NewConfig] fails with [ConfigError] on "GCP_PROJECT_ID" when that
    variable is absent or empty, whatever the other variables hold;
    otherwise it fails with [ConfigError] on "SECRET_NAME" when that one is
    absent or empty; otherwise it succeeds with the two values, and with
    the version "latest" when "SECRET_VERSION" is absent or empty, the
    given version when it is not. *)
Theorem NewConfig_cases (env : os.Environ) :
  (unset "GCP_PROJECT_ID" env ->
   NewConfig env = Fail (ErrConfig {| MissingField := "GCP_PROJECT_ID" |}))
  /\ (~ unset "GCP_PROJECT_ID" env -> unset "SECRET_NAME" env ->
      NewConfig env = Fail (ErrConfig {| MissingField := "SECRET_NAME" |}))
  /\ (~ unset "GCP_PROJECT_ID" env -> ~ unset "SECRET_NAME" env ->
      exists version,
        NewConfig env
        = Ok {| ProjectID := os.Getenv "GCP_PROJECT_ID" env;
                SecretName := os.Getenv "SECRET_NAME" env;
                SecretVersion := version |}
        /\ (unset "SECRET_VERSION" env -> version = "latest")
        /\ (~ unset "SECRET_VERSION" env ->
            env !! "SECRET_VERSION" = Some version)).
Proof.
  rewrite <- !Getenv_empty. unfold NewConfig.
  destruct (String.eqb_spec (os.Getenv "GCP_PROJECT_ID" env) "") as [P|P].
  { split; [reflexivity|]. split; intros; contradiction. }
  split; [contradiction|].
  destruct (String.eqb_spec (os.Getenv "SECRET_NAME" env) "") as [S|S].
  { split; [reflexivity|]. intros; contradiction. }
  split; [contradiction|]. intros _ _.
  destruct (String.eqb_spec (os.Getenv "SECRET_VERSION" env) "") as [V|V].
  - exists "latest". split; [reflexivity|]. split; [reflexivity|].
    intros U. now apply Getenv_empty in V.
  - exists (os.Getenv "SECRET_VERSION" env).
    split; [reflexivity|].
    split; [intros U; now apply Getenv_empty in U|]. intros _.
    unfold os.Getenv in *.
    destruct (env !! "SECRET_VERSION"); [reflexivity|contradiction].
Qed.

Lemma NewConfig_cases_witness :
  NewConfig (<["SECRET_NAME" := "n"]> ∅)
  = Fail (ErrConfig {| MissingField := "GCP_PROJECT_ID" |})
  /\ NewConfig (<["GCP_PROJECT_ID" := "p"]> (<["SECRET_NAME" := "n"]> ∅))
     = Ok {| ProjectID := "p"; SecretName := "n"; SecretVersion := "latest" |}.
Proof.
  split.
  - apply (proj1 (NewConfig_cases (<["SECRET_NAME" := "n"]> ∅))).
    left. reflexivity.
  - destruct (proj2 (proj2 (NewConfig_cases
        (<["GCP_PROJECT_ID" := "p"]> (<["SECRET_NAME" := "n"]> ∅)))))
      as (v & E & L & _).
    + intros [H|H]; vm_compute in H; discriminate.
    + intros [H|H]; vm_compute in H; discriminate.
    + rewrite E, L; [reflexivity|]. left. reflexivity.
Defined.

(** C7: for every configuration, [GetSecret] asks the service for the
    resource "projects/{project}/secrets/{secret}/versions/{version}" and
    for no other; when the fetch succeeds it returns the bytes of the
    payload as a string, and when the fetch fails it returns an error that
    wraps the failure and whose text contains "failed to access secret". *)
Theorem GetSecret_resource_name (service : secretManagerClient)
    (cfg : Config) :
  let c := {| client := service; config := cfg |} in
  let req := {| secretmanagerpb.Name := resourceName cfg |} in
  (forall response,
      AccessSecretVersion service req = Ok response ->
      GetSecret c
      = Ok (string_of_list_byte
              (secretmanagerpb.Data (secretmanagerpb.Payload response))))
  /\ (forall cause,
        AccessSecretVersion service req = Fail cause ->
        exists err,
          GetSecret c = Fail err
          /\ Unwrap err = Some cause
          /\ Error err = "failed to access secret: " ++ Error cause
          /\ strings.Contains (Error err) "failed to access secret" = true)
  /\ GetSecret {| client := echoClient; config := cfg |}
     = Ok (resourceName cfg).
Proof.
  cbv zeta. unfold GetSecret. cbn [config client].
  rewrite Sprintf_resourceName.
  split; [intros response H; now rewrite H|].
  split.
  - intros cause H. rewrite H. eexists. split; [reflexivity|].
    split; [reflexivity|]. rewrite Errorf_w_access. split; reflexivity.
  - cbn [echoClient AccessSecretVersion secretmanagerpb.Name
           secretmanagerpb.Payload secretmanagerpb.Data].
    now rewrite string_of_list_byte_of_string.
Qed.

Lemma GetSecret_resource_name_witness :
  GetSecret {| client := mockSecretManagerClient "FOO=bar" true;
               config := {| ProjectID := "p"; SecretName := "s";
                            SecretVersion := "latest" |} |}
  = Ok "FOO=bar"
  /\ exists err,
      GetSecret {| client := mockSecretManagerClient "" false;
                   config := {| ProjectID := "p"; SecretName := "s";
                                SecretVersion := "latest" |} |}
      = Fail err
      /\ Error err = "failed to access secret: access error".
Proof.
  split.
  - exact (proj1 (GetSecret_resource_name
                    (mockSecretManagerClient "FOO=bar" true)
                    {| ProjectID := "p"; SecretName := "s";
                       SecretVersion := "latest" |}) _ eq_refl).
  - destruct (proj1 (proj2 (GetSecret_resource_name
                    (mockSecretManagerClient "" false)
                    {| ProjectID := "p"; SecretName := "s";
                       SecretVersion := "latest" |}))
                (errorString "access error") eq_refl)
      as (err & G & _ & E & _).
    exists err. split; [exact G|exact E].
Defined.

(** C1, as stated, fails: on the secret "FOO=bar=baz" the load does fail on
    a parse error, but the reason of that error is "invalid specific
    key-value pair", which does not contain "exactly one '=' character". *)
Lemma LoadSecretToEnv_two_equals_reason :
  LoadSecretToEnv (mockClient "FOO=bar=baz" true) ∅
  = (∅, Some (Errorf_w "failed to set environment variable: %w"
        (ErrParse {| Line := "FOO=bar=baz"; LineNum := 1;
                     Reason := "invalid specific key-value pair" |})))
  /\ strings.Contains "invalid specific key-value pair"
       "exactly one '=' character" = false
  /\ strings.Contains
       (Error (Errorf_w "failed to set environment variable: %w"
          (ErrParse {| Line := "FOO=bar=baz"; LineNum := 1;
                       Reason := "invalid specific key-value pair" |})))
       "exactly one '=' character" = false.
Proof. split; [|split]; vm_compute; reflexivity. Qed.

(** C1 (amended): on the secret "FOO=bar=baz" [LoadSecretToEnv] fails with
    "failed to set environment variable" wrapping a [ParseError] for line 1
    whose reason is "invalid specific key-value pair", and it leaves the
    environment as it was, so that FOO is not set by the load. *)
Theorem LoadSecretToEnv_two_equals (c : Client) (env : os.Environ) :
  GetSecret c = Ok "FOO=bar=baz" ->
  exists err,
    LoadSecretToEnv c env = (env, Some err)
    /\ Unwrap err
       = Some (ErrParse {| Line := "FOO=bar=baz"; LineNum := 1;
                           Reason := "invalid specific key-value pair" |})
    /\ Error err
       = "failed to set environment variable: invalid format at line 1 (FOO=bar=baz): invalid specific key-value pair".
Proof.
  intros G. unfold LoadSecretToEnv. rewrite G.
  change (bufio.Tokens (newScanner "FOO=bar=baz")) with ["FOO=bar=baz"].
  change (bufio.Err (newScanner "FOO=bar=baz")) with (@None error).
  rewrite scanLoop_line by (vm_compute; discriminate).
  change (strings.TrimSpace "FOO=bar=baz") with "FOO=bar=baz".
  rewrite (rejection_Some "FOO=bar=baz" "invalid specific key-value pair")
    by reflexivity.
  eexists. split; [reflexivity|]. split; reflexivity.
Qed.

Lemma LoadSecretToEnv_two_equals_witness :
  exists err,
    LoadSecretToEnv (mockClient "FOO=bar=baz" true) (<["FOO" := "old"]> ∅)
    = (<["FOO" := "old"]> ∅, Some err)
    /\ Unwrap err
       = Some (ErrParse {| Line := "FOO=bar=baz"; LineNum := 1;
                           Reason := "invalid specific key-value pair" |})
    /\ Error err
       = "failed to set environment variable: invalid format at line 1 (FOO=bar=baz): invalid specific key-value pair".
Proof.
  apply (LoadSecretToEnv_two_equals (mockClient "FOO=bar=baz" true)).
  reflexivity.
Defined.

(** C2, as stated, fails: the trimmed value of the line "=[a=b]" contains
    ['='] and is wrapped in brackets, yet the line is refused, for its
    empty key; and a bracketed value that holds a NUL byte is refused by
    the environment after its brackets were stripped. *)
Lemma parseAndSetEnv_bracketed_value_refused :
  strings.SplitN "=[a=b]" "=" 2 = [""; "[a=b]"]
  /\ strings.Contains (strings.TrimSpace "[a=b]") "=" = true
  /\ Wrapped (strings.TrimSpace "[a=b]")
  /\ parseAndSetEnv "=[a=b]" 1 ∅
     = (∅, Some (ErrParse {| Line := "=[a=b]"; LineNum := 1;
                             Reason := "empty key is not allowed" |}))
  /\ Wrapped ("[a=" ++ String os.NUL "]")
  /\ parseAndSetEnv ("FOO=[a=" ++ String os.NUL "]") 1 ∅
     = (∅, Some (ErrParse
          {| Line := "FOO=[a=" ++ String os.NUL "]"; LineNum := 1;
             Reason :=
               "failed to set environment variable: setenv: invalid argument" |})).
Proof.
  split; [reflexivity|]. split; [reflexivity|].
  split; [apply bracketed_Wrapped; reflexivity|].
  split; [reflexivity|].
  split; [apply bracketed_Wrapped; reflexivity|reflexivity].
Qed.

(** C2 (amended): for every line of text (no NUL byte) with a non-empty
    trimmed key whose trimmed value contains ['='], [parseAndSetEnv]
    accepts the line if and only if the value is longer than two bytes,
    starts with ['['] and ends with [']']; it then sets the key to the
    text between the two brackets, unchanged, and otherwise refuses the
    line with "invalid specific key-value pair".  The line "FOO=[a=b]"
    sets FOO to "a=b". *)
Theorem parseAndSetEnv_bracket_value (line : string) (lineNum : Z)
    (env : os.Environ) (m : nat) (key value : string) :
  strings.IndexByte line "=" = Some m ->
  key = strings.TrimSpace (strings.slice line 0 m) ->
  value = strings.TrimSpace (strings.drop (m + 1) line) ->
  noNUL line ->
  key <> "" ->
  strings.Contains value "=" = true ->
  ((exists env', parseAndSetEnv line lineNum env = (env', None))
   <-> Wrapped value)
  /\ (Wrapped value ->
      exists inner,
        value = "[" ++ inner ++ "]"
        /\ parseAndSetEnv line lineNum env = (<[key := inner]> env, None))
  /\ (~ Wrapped value ->
      parseAndSetEnv line lineNum env
      = (env, Some (ErrParse {| Line := line; LineNum := lineNum;
                                Reason := "invalid specific key-value pair" |})))
  /\ parseAndSetEnv "FOO=[a=b]" lineNum env = (<["FOO" := "a=b"]> env, None).
Proof.
  intros I -> -> N K C.
  pose proof (parseAndSetEnv_split line lineNum env m I) as P. cbv zeta in P.
  apply String.eqb_neq in K. rewrite K, C in P.
  destruct (validSetenv_text line m 1
              (strings.len (strings.TrimSpace (strings.drop (m + 1) line)) - 1)
              I N) as [_ V]; [now apply String.eqb_neq|].
  rewrite V in P. rewrite <- bracketed_Wrapped.
  destruct (bracketed _) eqn:B; rewrite P.
  - split; [split; [reflexivity|intros _; eexists; reflexivity]|].
    split; [|split; [congruence|reflexivity]].
    intros _. eexists. split; [|reflexivity]. now apply bracketed_inner.
  - split; [split; [intros [env' H]; discriminate|discriminate]|].
    split; [discriminate|]. split; reflexivity.
Qed.

Lemma parseAndSetEnv_bracket_value_witness :
  Wrapped "[a=b]"
  /\ exists inner,
       "[a=b]" = "[" ++ inner ++ "]"
       /\ parseAndSetEnv "FOO=[a=b]" 1 ∅ = (<["FOO" := inner]> ∅, None).
Proof.
  assert (W : Wrapped "[a=b]") by (apply bracketed_Wrapped; reflexivity).
  split; [exact W|].
  destruct (parseAndSetEnv_bracket_value "FOO=[a=b]" 1 ∅ 3 "FOO" "[a=b]"
              eq_refl eq_refl eq_refl eq_refl ltac:(discriminate) eq_refl)
    as (_ & H & _).
  exact (H W).
Defined.

(** C3, as stated, fails: a value with several ['='] inside one pair of
    brackets, a value with nested brackets, and a value without ['='] that
    is bracketed on one side only are all accepted. *)
Lemma parseAndSetEnv_accepts_nested_and_multiple :
  parseAndSetEnv "FOO=[a=b=c]" 1 ∅ = (<["FOO" := "a=b=c"]> ∅, None)
  /\ parseAndSetEnv "FOO=[[a=b]]" 1 ∅ = (<["FOO" := "[a=b]"]> ∅, None)
  /\ parseAndSetEnv "FOO=[abc" 1 ∅ = (<["FOO" := "[abc"]> ∅, None).
Proof. split; [|split]; vm_compute; reflexivity. Qed.

(** C3 (amended): for every line of text with a non-empty trimmed key
    whose trimmed value contains ['='], [parseAndSetEnv] accepts the value
    whenever it is one pair of brackets around any text at all (further
    ['='] and brackets inside are kept as they are) and sets the key to
    that text; it refuses the line with "invalid specific key-value pair"
    whenever the value does not start with ['['] or does not end with
    [']']. *)
Theorem parseAndSetEnv_outer_brackets_only (line : string) (lineNum : Z)
    (env : os.Environ) (m : nat) (key value : string) :
  strings.IndexByte line "=" = Some m ->
  key = strings.TrimSpace (strings.slice line 0 m) ->
  value = strings.TrimSpace (strings.drop (m + 1) line) ->
  noNUL line ->
  key <> "" ->
  strings.Contains value "=" = true ->
  (forall inner,
      value = "[" ++ inner ++ "]" ->
      parseAndSetEnv line lineNum env = (<[key := inner]> env, None))
  /\ (strings.at_ value 0 <> Some "["%char
      \/ strings.at_ value (strings.len value - 1) <> Some "]"%char ->
      parseAndSetEnv line lineNum env
      = (env, Some (ErrParse {| Line := line; LineNum := lineNum;
                                Reason := "invalid specific key-value pair" |}))).
Proof.
  intros I -> -> N K C.
  pose proof (parseAndSetEnv_split line lineNum env m I) as P. cbv zeta in P.
  apply String.eqb_neq in K. rewrite K, C in P.
  destruct (validSetenv_text line m 1
              (strings.len (strings.TrimSpace (strings.drop (m + 1) line)) - 1)
              I N) as [_ V]; [now apply String.eqb_neq|].
  rewrite V in P. split.
  - intros inner E. rewrite E in P, C.
    assert (NE : inner <> "") by (intros ->; discriminate).
    destruct (bracketed_wrap inner NE) as [B S]. now rewrite B, S in P.
  - intros H. rewrite P.
    destruct (bracketed _) eqn:B; [|reflexivity].
    apply bracketed_Wrapped in B. destruct B as (_ & B1 & B2).
    destruct H; contradiction.
Qed.

Lemma parseAndSetEnv_outer_brackets_only_witness :
  parseAndSetEnv "FOO=[[a=b]=c]" 1 ∅ = (<["FOO" := "[a=b]=c"]> ∅, None)
  /\ parseAndSetEnv "FOO=[a=b" 1 ∅
     = (∅, Some (ErrParse {| Line := "FOO=[a=b"; LineNum := 1;
                             Reason := "invalid specific key-value pair" |})).
Proof.
  split.
  - apply (proj1 (parseAndSetEnv_outer_brackets_only "FOO=[[a=b]=c]" 1 ∅ 3
                    "FOO" "[[a=b]=c]" eq_refl eq_refl eq_refl eq_refl
                    ltac:(discriminate) eq_refl)).
    reflexivity.
  - apply (proj2 (parseAndSetEnv_outer_brackets_only "FOO=[a=b" 1 ∅ 3
                    "FOO" "[a=b" eq_refl eq_refl eq_refl eq_refl
                    ltac:(discriminate) eq_refl)).
    right. discriminate.
Defined.

(** C10, as stated, fails: the trimmed value of the line "=[abc]" has no
    ['='], yet nothing is written, for the key is empty; and a value
    without ['='] that holds a NUL byte is refused by the environment. *)
Lemma parseAndSetEnv_plain_value_not_written :
  strings.SplitN "=[abc]" "=" 2 = [""; "[abc]"]
  /\ strings.Contains (strings.TrimSpace "[abc]") "=" = false
  /\ parseAndSetEnv "=[abc]" 1 ∅
     = (∅, Some (ErrParse {| Line := "=[abc]"; LineNum := 1;
                             Reason := "empty key is not allowed" |}))
  /\ parseAndSetEnv ("KEY=[a" ++ String os.NUL "]") 1 ∅
     = (∅, Some (ErrParse
          {| Line := "KEY=[a" ++ String os.NUL "]"; LineNum := 1;
             Reason :=
               "failed to set environment variable: setenv: invalid argument" |})).
Proof. split; [|split; [|split]]; reflexivity. Qed.

(** C10 (amended): the brackets are stripped only from a value that
    contains ['='].  For every line whose trimmed value has no ['='], the
    only write [parseAndSetEnv] can make sets the key to the trimmed value
    as it stands, brackets included, and a refused line leaves the
    environment as it was; the write is made for every line of text (no
    NUL byte) with a non-empty trimmed key; "KEY=[abc]" sets KEY to
    "[abc]". *)
Theorem parseAndSetEnv_plain_value_verbatim (line : string) (lineNum : Z)
    (env : os.Environ) (m : nat) (key value : string) :
  strings.IndexByte line "=" = Some m ->
  key = strings.TrimSpace (strings.slice line 0 m) ->
  value = strings.TrimSpace (strings.drop (m + 1) line) ->
  strings.Contains value "=" = false ->
  (forall env',
      parseAndSetEnv line lineNum env = (env', None) ->
      env' = <[key := value]> env)
  /\ (forall env' err,
        parseAndSetEnv line lineNum env = (env', Some err) -> env' = env)
  /\ (key <> "" -> noNUL line ->
      parseAndSetEnv line lineNum env = (<[key := value]> env, None))
  /\ parseAndSetEnv "KEY=[abc]" lineNum env
     = (<["KEY" := "[abc]"]> env, None).
Proof.
  intros I -> -> C.
  pose proof (parseAndSetEnv_split line lineNum env m I) as P. cbv zeta in P.
  rewrite C in P.
  split; [|split; [|split; [|reflexivity]]].
  - intros env'. rewrite P.
    destruct (_ =? _)%string; [discriminate|].
    destruct (os.validSetenv _ _); [congruence|discriminate].
  - intros env' err. apply parseAndSetEnv_error_env.
  - intros K N. rewrite P.
    destruct (validSetenv_text line m 0 0 I N K) as [V _]. rewrite V.
    apply String.eqb_neq in K. now rewrite K.
Qed.

Lemma parseAndSetEnv_plain_value_verbatim_witness :
  parseAndSetEnv " KEY = [abc] " 1 ∅ = (<["KEY" := "[abc]"]> ∅, None).
Proof.
  apply (proj1 (proj2 (proj2
    (parseAndSetEnv_plain_value_verbatim " KEY = [abc] " 1 ∅ 5 "KEY" "[abc]"
       eq_refl eq_refl eq_refl eq_refl)))).
  - discriminate.
  - reflexivity.
Defined.

(** C8, as stated, fails: in the secret whose first line is "A=1" and
    whose second line is 65536 times the byte x, line 1 is well-formed and
    line 2 is malformed (it has no ['=']), yet the load does not return
    the [ParseError] of line 2: the scanner cannot yield a line of 64 KiB,
    and the load returns "error reading secret content" after line 1 was
    applied. *)
Lemma LoadSecretToEnv_long_line_not_parsed :
  wellFormed "A=1"
  /\ malformed (repeatByte "x" (Z.to_nat 65536))
  /\ LoadSecretToEnv
       (mockClient ("A=1" ++ String "010" (repeatByte "x" (Z.to_nat 65536)))
          true) ∅
     = (<["A" := "1"]> ∅,
        Some (Errorf_w "error reading secret content: %w" bufio.ErrTooLong)).
Proof.
  split; [right; reflexivity|]. split.
  - split.
    + intros H. apply (f_equal (fun s => strings.HasPrefix s "x")) in H.
      vm_compute in H. discriminate.
    + assert (R : rejection
                    (strings.TrimSpace (repeatByte "x" (Z.to_nat 65536)))
                  = Some "line must contain exactly one '=' character")
        by (vm_compute; reflexivity).
      rewrite R. discriminate.
  - vm_compute. reflexivity.
Qed.

(** C8 (amended): for every secret text in which line N and the lines
    before it are each shorter than 64 KiB, so that the scanner yields
    them, when the lines before line N are well-formed and line N is
    malformed, [LoadSecretToEnv] applies the lines before N to the
    environment in order, returns "failed to set environment variable"
    wrapping the [ParseError] of line N with line number N, and leaves the
    environment as the lines before N made it: whatever follows line N is
    not processed and nothing is rolled back. *)
Theorem LoadSecretToEnv_stops_at_first_malformed (c : Client)
    (content : string) (env : os.Environ)
    (before : list string) (bad tail : string) :
  GetSecret c = Ok content ->
  (Z.of_nat (strings.len content) <= int.MaxInt)%Z ->
  content = joinLines before tail ->
  (tail = bad \/ exists rest, tail = bad ++ String "010" rest) ->
  Forall shortLine before ->
  shortLine bad ->
  Forall wellFormed before ->
  malformed bad ->
  exists reason,
    LoadSecretToEnv c env
    = (applyLines before env,
       Some (Errorf_w "failed to set environment variable: %w"
          (ErrParse {| Line := strings.TrimSpace bad;
                       LineNum := Z.of_nat (length before) + 1;
                       Reason := reason |})))
    /\ rejection (strings.TrimSpace bad) = Some reason
    /\ Forall (fun text =>
                 (strings.TrimSpace text = ""
                  /\ forall e : os.Environ, applyLine e text = e)
                 \/ (exists key value, forall e : os.Environ,
                        applyLine e text = <[key := value]> e)) before.
Proof.
  intros G L -> T Fb [Nb Sb] W M.
  assert (Short : (bufio.MaxScanTokenSize <=? Z.of_nat (strings.len bad))%Z
                  = false) by (apply Z.leb_gt; exact Sb).
  assert (NE : bad <> "") by (intros ->; now destruct M as [M _]).
  assert (Tk : exists after,
             bufio.Tokens (newScanner (joinLines before tail))
             = (map bufio.dropCR before ++ bufio.dropCR bad :: after)%list).
  { destruct (newScanner_joinLines before tail Fb) as [-> _].
    destruct T as [->|[rest ->]].
    - rewrite (newScanner_last _ Nb NE), Short. now exists [].
    - rewrite (newScanner_line _ _ Nb), Short. eauto. }
  destruct Tk as [after Tk].
  destruct (LoadSecretToEnv_tokens_first_malformed c _ env _ _ _ G L Tk)
    as (reason & R & Rj).
  { now apply Forall_wellFormed_dropCR. }
  { now apply malformed_dropCR. }
  rewrite applyLines_dropCR, TrimSpace_dropCR, length_map in R.
  rewrite TrimSpace_dropCR in Rj.
  exists reason. split; [exact R|]. split; [exact Rj|].
  eapply Forall_impl; [exact W|]. exact applyLine_wellFormed.
Qed.

Lemma LoadSecretToEnv_stops_at_first_malformed_witness :
  exists reason,
    LoadSecretToEnv
      (mockClient "A=1
B=2
oops
C=3" true) ∅
    = (applyLines ["A=1"; "B=2"] ∅,
       Some (Errorf_w "failed to set environment variable: %w"
          (ErrParse {| Line := strings.TrimSpace "oops";
                       LineNum := Z.of_nat (length ["A=1"; "B=2"]) + 1;
                       Reason := reason |})))
    /\ rejection (strings.TrimSpace "oops") = Some reason
    /\ Forall (fun text =>
                 (strings.TrimSpace text = ""
                  /\ forall e : os.Environ, applyLine e text = e)
                 \/ (exists key value, forall e : os.Environ,
                        applyLine e text = <[key := value]> e))
         ["A=1"; "B=2"].
Proof.
  apply (LoadSecretToEnv_stops_at_first_malformed
           (mockClient "A=1
B=2
oops
C=3" true)
           "A=1
B=2
oops
C=3" ∅ ["A=1"; "B=2"] "oops" "oops
C=3").
  - reflexivity.
  - vm_compute. discriminate.
  - reflexivity.
  - right. exists "C=3". reflexivity.
  - constructor; [split; reflexivity|].
    constructor; [split; reflexivity|constructor].
  - split; reflexivity.
  - constructor; [right; reflexivity|].
    constructor; [right; reflexivity|constructor].
  - split; vm_compute; discriminate.
Defined.

(** C9, as stated, fails: a line of 65536 spaces is empty once trimmed,
    yet the load does not skip it and go on with the next line "A=1": the
    scanner cannot yield a line of 64 KiB, the load returns "error reading
    secret content" and A is not set, while the same secret without that
    line loads. *)
Lemma LoadSecretToEnv_long_blank_line_not_skipped :
  strings.TrimSpace (repeatByte " " (Z.to_nat 65536)) = ""
  /\ LoadSecretToEnv
       (mockClient (repeatByte " " (Z.to_nat 65536) ++ String "010" "A=1")
          true) ∅
     = (∅, Some (Errorf_w "error reading secret content: %w"
                   bufio.ErrTooLong))
  /\ LoadSecretToEnv (mockClient "A=1" true) ∅ = (<["A" := "1"]> ∅, None).
Proof. split; [|split]; vm_compute; reflexivity. Qed.

(** C9 (amended): a line that is empty once trimmed (empty, or white space
    only) and that the scanner yields is skipped by the loop of
    [LoadSecretToEnv], which goes on with the next line in the same
    environment and without an error; and for every such line shorter
    than 64 KiB, the load of the secret leaves the same environment, and
    succeeds or fails alike, with the line as without it. *)
Theorem LoadSecretToEnv_skips_blank (text : string) :
  strings.TrimSpace text = "" ->
  (forall tokens lineNum env,
      scanLoop (text :: tokens) lineNum env
      = scanLoop tokens (int.incr lineNum) env)
  /\ (forall before after lineNum env,
        fst (scanLoop (before ++ text :: after)%list lineNum env)
        = fst (scanLoop (before ++ after)%list lineNum env)
        /\ (snd (scanLoop (before ++ text :: after)%list lineNum env) = None
            <-> snd (scanLoop (before ++ after)%list lineNum env) = None))
  /\ (shortLine text ->
      forall (c c' : Client) (env : os.Environ) (before : list string)
             (tail tail' : string),
        Forall noNewline before ->
        tail = text ++ String "010" tail' \/ (tail = text /\ tail' = "") ->
        GetSecret c = Ok (joinLines before tail) ->
        GetSecret c' = Ok (joinLines before tail') ->
        fst (LoadSecretToEnv c env) = fst (LoadSecretToEnv c' env)
        /\ (snd (LoadSecretToEnv c env) = None
            <-> snd (LoadSecretToEnv c' env) = None)).
Proof.
  intros E. split; [intros; now apply scanLoop_blank|].
  split; [intros; now apply scanLoop_without_blank|].
  intros S c c' env before tail tail' F T G G'.
  exact (LoadSecretToEnv_without_blank c c' env before text tail tail'
           E S F T G G').
Qed.

Lemma LoadSecretToEnv_skips_blank_witness :
  strings.TrimSpace "   " = ""
  /\ shortLine "   "
  /\ fst (LoadSecretToEnv (mockClient "A=1
   
B=2" true) ∅)
     = fst (LoadSecretToEnv (mockClient "A=1
B=2" true) ∅)
  /\ (snd (LoadSecretToEnv (mockClient "A=1
   
B=2" true) ∅) = None
      <-> snd (LoadSecretToEnv (mockClient "A=1
B=2" true) ∅) = None).
Proof.
  assert (S : shortLine "   ") by (split; reflexivity).
  split; [reflexivity|]. split; [exact S|].
  apply (proj2 (proj2 (LoadSecretToEnv_skips_blank "   " eq_refl)) S
           (mockClient "A=1
   
B=2" true)
           (mockClient "A=1
B=2" true) ∅ ["A=1"] "   
B=2" "B=2").
  - constructor; [reflexivity|constructor].
  - left. reflexivity.
  - reflexivity.
  - reflexivity.
Defined.

(** * Further properties of the package *)

(** ** Helper facts *)

Lemma HasPrefix_refl (s : string) : strings.HasPrefix s s = true.
Proof.
  induction s as [|a s IH]; [reflexivity|]. simpl.
  now rewrite Ascii.eqb_refl, IH.
Qed.

(** A text contains each of its suffixes. *)
Lemma Contains_suffix (p s : string) : strings.Contains (p ++ s) s = true.
Proof.
  unfold strings.Contains.
  induction p as [|a p IH].
  - rewrite append_nil. destruct s; simpl; [reflexivity|].
    now rewrite Ascii.eqb_refl, HasPrefix_refl.
  - rewrite append_cons. cbn [strings.Index].
    destruct (strings.HasPrefix (String a (p ++ s)) s); [reflexivity|].
    now destruct (strings.Index (p ++ s) s).
Qed.

(** The text of a [ParseError]. *)
Lemma ParseError_Error_text (p : ParseError) :
  ParseError_Error p
  = "invalid format at line " ++ fmt.Itoa (LineNum p) ++ " (" ++ Line p
    ++ "): " ++ Reason p.
Proof.
  unfold ParseError_Error. cbn [fmt.Sprintf fmt.render].
  rewrite append_nil_r. reflexivity.
Qed.

Lemma validSetenv_true (key value : string) :
  os.validSetenv key value = true
  <-> key <> "" /\ strings.IndexByte key "=" = None
      /\ noNUL key /\ noNUL value.
Proof.
  unfold os.validSetenv, os.hasByte, noNUL.
  rewrite !andb_true_iff, !negb_true_iff, Nat.eqb_neq.
  destruct (strings.IndexByte key "="), (strings.IndexByte key os.NUL),
    (strings.IndexByte value os.NUL), key; simpl;
    intuition (congruence || lia).
Qed.

(** What an accepted line is. *)
Lemma parseAndSetEnv_accepted (line : string) (lineNum : Z)
    (env env' : os.Environ) :
  parseAndSetEnv line lineNum env = (env', None) ->
  exists m key value,
    strings.IndexByte line "=" = Some m
    /\ key = strings.TrimSpace (strings.slice line 0 m)
    /\ os.validSetenv key value = true
    /\ sets line key value
    /\ (value = strings.TrimSpace (strings.drop (m + 1) line)
        /\ strings.Contains value "=" = false
        \/ "[" ++ value ++ "]" = strings.TrimSpace (strings.drop (m + 1) line)
           /\ strings.Contains value "=" = true).
Proof.
  intros H.
  destruct (strings.IndexByte line "=") as [m|] eqn:I;
    [|now rewrite parseAndSetEnv_unsplit in H].
  assert (P := fun n e => parseAndSetEnv_split line n e m I).
  cbv zeta in P. rewrite P in H.
  exists m, (strings.TrimSpace (strings.slice line 0 m)).
  destruct (_ =? _)%string; [discriminate|].
  destruct (strings.Contains _ "=") eqn:C.
  - destruct (bracketed _) eqn:B; [|discriminate].
    destruct (os.validSetenv _ _) eqn:V; [|discriminate].
    eexists. split; [reflexivity|]. split; [reflexivity|].
    split; [exact V|]. split; [intros n e; apply P|].
    right. pose proof (bracketed_inner _ B) as E. split; [now rewrite <- E|].
    rewrite E, Contains_byte in C. rewrite Contains_byte.
    unfold os.hasByte in *.
    change ("[" ++ ?x) with (String "[" x) in C. cbn [strings.IndexByte] in C.
    change (Ascii.eqb "[" "=") with false in C. cbv iota in C.
    destruct (strings.IndexByte (_ ++ "]") "=") as [j|] eqn:J;
      [clear C|discriminate].
    destruct (strings.IndexByte (strings.slice _ 1 _) "=") eqn:K;
      [reflexivity|exfalso].
    revert J. clear - K. revert j.
    induction (strings.slice _ 1 _) as [|a s IH]; intros j.
    + discriminate.
    + rewrite append_cons. cbn [strings.IndexByte] in *.
      destruct (Ascii.eqb a "="); [discriminate|].
      destruct (strings.IndexByte s "="); [discriminate|].
      destruct (strings.IndexByte (s ++ "]") "=") eqn:J; [|discriminate].
      intros _. now apply (IH eq_refl n).
  - destruct (os.validSetenv _ _) eqn:V; [|discriminate].
    eexists. split; [reflexivity|]. split; [reflexivity|].
    split; [exact V|]. split; [intros n e; apply P|].
    left. now split.
Qed.

(** A token is well-formed or it is refused with some reason. *)
Lemma token_cases (text : string) :
  wellFormed text
  \/ (strings.TrimSpace text <> ""
      /\ exists reason, rejection (strings.TrimSpace text) = Some reason).
Proof.
  unfold wellFormed.
  destruct (String.eqb_spec (strings.TrimSpace text) "") as [E|E];
    [now left; left|].
  destruct (rejection (strings.TrimSpace text)) as [r|] eqn:R;
    [right; eauto|left; now right].
Qed.

(** The loop over well-formed tokens runs to the end, at any line number. *)
Lemma scanLoop_all_wellFormed (tokens : list string) (lineNum : Z)
    (env : os.Environ) :
  Forall wellFormed tokens ->
  scanLoop tokens lineNum env = (applyLines tokens env, None).
Proof.
  intros W. revert lineNum env.
  induction W as [|text tokens Wt _ IH]; intros lineNum env; [reflexivity|].
  rewrite (scanLoop_wellFormed _ _ _ _ Wt). apply IH.
Qed.

(** The loop that runs to the end met well-formed tokens only. *)
Lemma scanLoop_ok_inv (tokens : list string) (lineNum : Z)
    (env env' : os.Environ) :
  scanLoop tokens lineNum env = (env', None) -> Forall wellFormed tokens.
Proof.
  revert lineNum env. induction tokens as [|text tokens IH];
    intros lineNum env H; [constructor|].
  destruct (token_cases text) as [W|(NE & r & R)].
  - constructor; [exact W|].
    rewrite (scanLoop_wellFormed _ _ _ _ W) in H. eapply IH, H.
  - rewrite (scanLoop_line _ _ _ _ NE) in H.
    rewrite (rejection_Some _ _ _ _ R) in H. discriminate.
Qed.

(** The loop that stops with an error stopped at its first malformed
    token. *)
Lemma scanLoop_error_inv (tokens : list string) (lineNum : Z)
    (env env' : os.Environ) (err : error) :
  scanLoop tokens lineNum env = (env', Some err) ->
  exists before bad after reason num,
    tokens = (before ++ bad :: after)%list
    /\ Forall wellFormed before
    /\ strings.TrimSpace bad <> ""
    /\ rejection (strings.TrimSpace bad) = Some reason
    /\ env' = applyLines before env
    /\ err = Errorf_w "failed to set environment variable: %w"
               (ErrParse {| Line := strings.TrimSpace bad; LineNum := num;
                            Reason := reason |})
    /\ ((0 <= lineNum)%Z ->
        (lineNum + Z.of_nat (length before) < int.MaxInt)%Z ->
        num = (lineNum + Z.of_nat (length before) + 1)%Z).
Proof.
  revert lineNum env. induction tokens as [|text tokens IH];
    intros lineNum env H; [discriminate|].
  destruct (token_cases text) as [W|(NE & r & R)].
  - rewrite (scanLoop_wellFormed _ _ _ _ W) in H.
    destruct (IH _ _ H) as (b & bad & a & reason & num & E & Wb & NE & R & Ev
                            & Er & N).
    exists (text :: b), bad, a, reason, num.
    split; [now rewrite E|]. split; [now constructor|].
    split; [exact NE|]. split; [exact R|]. split; [exact Ev|].
    split; [exact Er|]. cbn [length]. intros H0 H1.
    rewrite N; rewrite ?incr_no_wrap; lia.
  - rewrite (scanLoop_line _ _ _ _ NE) in H.
    rewrite (rejection_Some _ _ _ _ R) in H. injection H as <- <-.
    exists [], text, tokens, r, (int.incr lineNum).
    split; [reflexivity|]. split; [constructor|]. split; [exact NE|].
    split; [exact R|]. split; [reflexivity|]. split; [reflexivity|].
    cbn [length]. intros H0 H1. rewrite incr_no_wrap; lia.
Qed.

(** ** Writes *)

Lemma lookup_write (o : option (string * string)) (env : os.Environ)
    (key : string) :
  write o env !! key
  = match o with
    | Some (k, v) => if (k =? key)%string then Some v else env !! key
    | None => env !! key
    end.
Proof.
  destruct o as [[k v]|]; [|reflexivity]. cbn [write].
  destruct (String.eqb_spec k key) as [->|N].
  - apply lookup_insert_eq.
  - now apply lookup_insert_ne.
Qed.

(** A run of writes leaves, for each variable, its last write, or what the
    environment held. *)
Lemma lookup_writes (ws : list (option (string * string)))
    (env : os.Environ) (key : string) :
  fold_left (fun e o => write o e) ws env !! key
  = match lastWrite ws key with
    | Some v => Some v
    | None => env !! key
    end.
Proof.
  revert env. induction ws as [|o ws IH]; intros env; [reflexivity|].
  cbn [fold_left lastWrite]. rewrite IH.
  destruct (lastWrite ws key); [reflexivity|].
  rewrite lookup_write. destruct o as [[k v]|]; [|reflexivity].
  now destruct (k =? key)%string.
Qed.

(** Running the same writes a second time changes nothing. *)
Lemma writes_idempotent (ws : list (option (string * string)))
    (env : os.Environ) :
  fold_left (fun e o => write o e) ws
    (fold_left (fun e o => write o e) ws env)
  = fold_left (fun e o => write o e) ws env.
Proof.
  apply map_eq. intros key. rewrite !lookup_writes.
  now destruct (lastWrite ws key).
Qed.

(** The writes of a run of well-formed tokens. *)
Lemma wellFormed_writes (tokens : list string) :
  Forall wellFormed tokens ->
  exists ws,
    forall env : os.Environ,
      applyLines tokens env = fold_left (fun e o => write o e) ws env.
Proof.
  induction 1 as [|text tokens W _ (ws & IH)]; [now exists []|].
  destruct (applyLine_wellFormed text W) as [[_ H]|(k & v & H)].
  - exists (None :: ws). intros env. cbn [applyLines fold_left write].
    rewrite H. apply IH.
  - exists (Some (k, v) :: ws). intros env. cbn [applyLines fold_left write].
    rewrite H. apply IH.
Qed.

(** A well-formed token is blank or sets one variable. *)
Lemma wellFormed_sets (text : string) :
  wellFormed text ->
  strings.TrimSpace text = ""
  \/ (strings.TrimSpace text <> ""
      /\ exists key value, sets (strings.TrimSpace text) key value).
Proof.
  intros W.
  destruct (String.eqb_spec (strings.TrimSpace text) "") as [E|E];
    [now left|right]. split; [exact E|].
  destruct W as [W|W]; [contradiction|]. unfold rejection in W.
  destruct (parseAndSetEnv_shape (strings.TrimSpace text))
    as [(r & H)|(k & v & H)]; [now rewrite H in W|].
  now exists k, v.
Qed.

Lemma applyLine_sets (text key value : string) (env : os.Environ) :
  sets (strings.TrimSpace text) key value ->
  strings.TrimSpace text <> ""
  /\ applyLine env text = <[key := value]> env.
Proof.
  intros S. unfold applyLine.
  destruct (String.eqb_spec (strings.TrimSpace text) "") as [E|E].
  - rewrite E in S. specialize (S 0%Z env). discriminate.
  - split; [exact E|]. now rewrite S.
Qed.

Lemma applyLines_app (xs ys : list string) (env : os.Environ) :
  applyLines (xs ++ ys) env = applyLines ys (applyLines xs env).
Proof. unfold applyLines. now rewrite fold_left_app. Qed.

(** What a successful load is made of. *)
Lemma LoadSecretToEnv_ok_inv (c : Client) (env env' : os.Environ) :
  LoadSecretToEnv c env = (env', None) ->
  exists content,
    GetSecret c = Ok content
    /\ Forall wellFormed (bufio.Tokens (newScanner content))
    /\ bufio.Err (newScanner content) = None
    /\ env' = applyLines (bufio.Tokens (newScanner content)) env.
Proof.
  unfold LoadSecretToEnv.
  destruct (GetSecret c) as [content|cause]; [|discriminate].
  destruct (scanLoop _ 0 env) as [e [err|]] eqn:L; [discriminate|].
  destruct (bufio.Err _) eqn:S; [discriminate|]. intros [= <-].
  exists content. pose proof (scanLoop_ok_inv _ _ _ _ L) as W.
  rewrite (scanLoop_all_wellFormed _ 0 env W) in L.
  split; [reflexivity|]. split; [exact W|]. split; [exact S|congruence].
Qed.

(** ** Properties *)

(** X1: [NewSecret] succeeds exactly when GCP_PROJECT_ID and SECRET_NAME
    are set to non-empty values and the factory yields a client; the
    client it returns is the factory's, and every field of its
    configuration, the version included, is non-empty. *)
Theorem NewSecret_succeeds (factory : result secretManagerClient)
    (env : os.Environ) :
  ((exists c, NewSecret factory env = Ok c)
   <-> ~ unset "GCP_PROJECT_ID" env /\ ~ unset "SECRET_NAME" env
       /\ exists service, factory = Ok service)
  /\ forall c,
      NewSecret factory env = Ok c ->
      factory = Ok (client c)
      /\ NewConfig env = Ok (config c)
      /\ ProjectID (config c) = os.Getenv "GCP_PROJECT_ID" env
      /\ SecretName (config c) = os.Getenv "SECRET_NAME" env
      /\ ProjectID (config c) <> ""
      /\ SecretName (config c) <> ""
      /\ SecretVersion (config c) <> "".
Proof.
  rewrite <- !Getenv_empty. unfold NewSecret, NewConfig.
  destruct (String.eqb_spec (os.Getenv "GCP_PROJECT_ID" env) "") as [P|P].
  { split; [split|]; [intros [c H]; discriminate|tauto|discriminate]. }
  destruct (String.eqb_spec (os.Getenv "SECRET_NAME" env) "") as [S|S].
  { split; [split|]; [intros [c H]; discriminate|tauto|discriminate]. }
  destruct factory as [service|cause].
  - split; [split; eauto|]. intros c [= <-]. cbn [client config ProjectID
      SecretName SecretVersion].
    repeat (split; [first [reflexivity|assumption]|]).
    destruct (String.eqb_spec (os.Getenv "SECRET_VERSION" env) "");
      [discriminate|assumption].
  - split; [split|]; [intros [c H]; discriminate| |discriminate].
    intros (_ & _ & service & H). discriminate.
Qed.

Lemma NewSecret_succeeds_witness :
  let env : os.Environ :=
    <["GCP_PROJECT_ID" := "test-id"]> (<["SECRET_NAME" := "test-name"]> ∅) in
  let c := {| client := mockSecretManagerClient "x" true;
              config := {| ProjectID := "test-id"; SecretName := "test-name";
                           SecretVersion := "latest" |} |} in
  NewSecret (Ok (mockSecretManagerClient "x" true)) env = Ok c
  /\ NewConfig env = Ok (config c)
  /\ SecretVersion (config c) <> "".
Proof.
  intros env c.
  assert (H : NewSecret (Ok (mockSecretManagerClient "x" true)) env = Ok c)
    by (vm_compute; reflexivity).
  split; [exact H|].
  destruct (proj2 (NewSecret_succeeds _ _) c H) as (_ & N & _ & _ & _ & _ & V).
  split; [exact N|exact V].
Defined.

(** X2: when [NewSecret] fails, either a required variable is missing, and
    the error wraps the [ConfigError] that names it (GCP_PROJECT_ID before
    SECRET_NAME, and before the factory is looked at), or the
    configuration is complete and the error wraps the failure of the
    factory; in both cases the text of the error ends with, and so
    contains, the text of the error it wraps. *)
Theorem NewSecret_failure (factory : result secretManagerClient)
    (env : os.Environ) (err : error) :
  NewSecret factory env = Fail err ->
  exists cause,
    Unwrap err = Some cause
    /\ strings.Contains (Error err) (Error cause) = true
    /\ ((unset "GCP_PROJECT_ID" env
         /\ cause = ErrConfig {| MissingField := "GCP_PROJECT_ID" |}
         /\ Error err
            = "failed to create config: missing required environment variable: GCP_PROJECT_ID")
        \/ (~ unset "GCP_PROJECT_ID" env /\ unset "SECRET_NAME" env
            /\ cause = ErrConfig {| MissingField := "SECRET_NAME" |}
            /\ Error err
               = "failed to create config: missing required environment variable: SECRET_NAME")
        \/ (~ unset "GCP_PROJECT_ID" env /\ ~ unset "SECRET_NAME" env
            /\ factory = Fail cause
            /\ Error err
               = "failed to create secret manager client: " ++ Error cause)).
Proof.
  repeat setoid_rewrite <- Getenv_empty. unfold NewSecret, NewConfig.
  destruct (String.eqb_spec (os.Getenv "GCP_PROJECT_ID" env) "") as [P|P].
  { intros [= <-]. eexists. split; [reflexivity|]. split; [reflexivity|].
    left. now repeat split. }
  destruct (String.eqb_spec (os.Getenv "SECRET_NAME" env) "") as [S|S].
  { intros [= <-]. eexists. split; [reflexivity|]. split; [reflexivity|].
    right; left. now repeat split. }
  destruct factory as [service|cause]; [discriminate|].
  intros [= <-]. exists cause. split; [reflexivity|].
  assert (E : Error (Errorf_w "failed to create secret manager client: %w"
                       cause)
              = "failed to create secret manager client: " ++ Error cause)
    by (errorf_text; reflexivity).
  split; [rewrite E; apply Contains_suffix|].
  right; right. now repeat split.
Qed.

Lemma NewSecret_failure_witness :
  exists cause,
    Unwrap (Errorf_w "failed to create secret manager client: %w"
              (errorString "error"))
    = Some cause
    /\ strings.Contains
         (Error (Errorf_w "failed to create secret manager client: %w"
                   (errorString "error")))
         (Error cause) = true.
Proof.
  assert (H : NewSecret (Fail (errorString "error"))
                (<["GCP_PROJECT_ID" := "test-id"]>
                   (<["SECRET_NAME" := "test-name"]> (∅ : os.Environ)))
              = Fail (Errorf_w "failed to create secret manager client: %w"
                        (errorString "error")))
    by (vm_compute; reflexivity).
  destruct (NewSecret_failure _ _ _ H) as (cause & U & C & _).
  exists cause. split; [exact U|exact C].
Defined.

(** X3: when the fetch fails, [LoadSecretToEnv] leaves the environment
    exactly as it was and returns an error that wraps the error of
    [GetSecret], which wraps the failure of the service; its text is
    "failed to retrieve secret: failed to access secret: " followed by the
    text of that failure. *)
Theorem LoadSecretToEnv_fetch_failure (c : Client) (env : os.Environ)
    (cause : error) :
  AccessSecretVersion (client c)
    {| secretmanagerpb.Name := resourceName (config c) |} = Fail cause ->
  exists err inner,
    LoadSecretToEnv c env = (env, Some err)
    /\ Unwrap err = Some inner
    /\ Unwrap inner = Some cause
    /\ Error err
       = "failed to retrieve secret: failed to access secret: "
         ++ Error cause.
Proof.
  intros H. unfold LoadSecretToEnv, GetSecret.
  rewrite Sprintf_resourceName, H.
  do 2 eexists. split; [reflexivity|]. split; [reflexivity|].
  split; [reflexivity|]. errorf_text. reflexivity.
Qed.

Lemma LoadSecretToEnv_fetch_failure_witness :
  exists err inner,
    LoadSecretToEnv (mockClient "FOO=bar" false) (<["FOO" := "old"]> ∅)
    = (<["FOO" := "old"]> ∅, Some err)
    /\ Unwrap err = Some inner
    /\ Unwrap inner = Some (errorString "access error")
    /\ Error err
       = "failed to retrieve secret: failed to access secret: "
         ++ Error (errorString "access error").
Proof.
  apply (LoadSecretToEnv_fetch_failure (mockClient "FOO=bar" false)).
  reflexivity.
Defined.

(** X4: [LoadSecretToEnv] returns no error exactly when the fetch succeeds,
    every line of the secret is blank or accepted by [parseAndSetEnv], and
    the scanner reports no error; the environment it leaves is then the
    one the lines give when applied in order. *)
Theorem LoadSecretToEnv_succeeds (c : Client) (env env' : os.Environ) :
  LoadSecretToEnv c env = (env', None)
  <-> exists content,
        GetSecret c = Ok content
        /\ Forall wellFormed (bufio.Tokens (newScanner content))
        /\ bufio.Err (newScanner content) = None
        /\ env' = applyLines (bufio.Tokens (newScanner content)) env.
Proof.
  split; [apply LoadSecretToEnv_ok_inv|].
  intros (content & G & W & S & ->). unfold LoadSecretToEnv.
  now rewrite G, (scanLoop_all_wellFormed _ 0 env W), S.
Qed.

Lemma LoadSecretToEnv_succeeds_witness :
  LoadSecretToEnv (mockClient "A=1

 B = [x=y] " true) ∅
  = (applyLines ["A=1"; ""; " B = [x=y] "] ∅, None).
Proof.
  apply LoadSecretToEnv_succeeds. exists "A=1

 B = [x=y] ".
  split; [reflexivity|]. split; [|split; reflexivity].
  constructor; [right; reflexivity|].
  constructor; [left; reflexivity|].
  constructor; [right; reflexivity|constructor].
Defined.

(** X5: an error of [LoadSecretToEnv] is of one of three kinds.  Either the
    fetch failed, nothing was written and the error wraps the failure; or
    some line is malformed, the error wraps the [ParseError] of the first
    such line, which carries that line trimmed and its number counted
    from 1 over all lines, blank ones included, and the environment holds
    the lines before it and nothing else; or the secret holds a line of
    64 KiB or more, the error wraps the scanner's "token too long", the
    lines before the first such line were all well-formed and were
    applied, and that line and what follows it were not processed. *)
Theorem LoadSecretToEnv_failure (c : Client) (env env' : os.Environ)
    (err : error) :
  LoadSecretToEnv c env = (env', Some err) ->
  (exists cause,
      GetSecret c = Fail cause /\ env' = env
      /\ err = Errorf_w "failed to retrieve secret: %w" cause)
  \/ (exists content before bad after p,
        GetSecret c = Ok content
        /\ bufio.Tokens (newScanner content) = (before ++ bad :: after)%list
        /\ Forall wellFormed before /\ malformed bad
        /\ env' = applyLines before env
        /\ err = Errorf_w "failed to set environment variable: %w"
                   (ErrParse p)
        /\ Line p = strings.TrimSpace bad
        /\ rejection (strings.TrimSpace bad) = Some (Reason p)
        /\ ((Z.of_nat (strings.len content) <= int.MaxInt)%Z ->
            LineNum p = (Z.of_nat (length before) + 1)%Z))
  \/ (exists content before tail,
        GetSecret c = Ok content
        /\ content = joinLines before tail
        /\ Forall shortLine before
        /\ (bufio.MaxScanTokenSize <= Z.of_nat (lineLen tail))%Z
        /\ Forall wellFormed before
        /\ env' = applyLines before env
        /\ err = Errorf_w "error reading secret content: %w"
                   bufio.ErrTooLong).
Proof.
  unfold LoadSecretToEnv.
  destruct (GetSecret c) as [content|cause];
    [|intros [= <- <-]; left; now exists cause].
  destruct (scanLoop _ 0 env) as [e [perr|]] eqn:L.
  - intros [= <- <-]. right; left.
    destruct (scanLoop_error_inv _ _ _ _ _ L)
      as (b & bad & a & reason & num & T & W & NE & R & E & Er & N).
    exists content, b, bad, a,
      {| Line := strings.TrimSpace bad; LineNum := num; Reason := reason |}.
    split; [reflexivity|]. split; [exact T|]. split; [exact W|].
    split; [split; [exact NE|congruence]|]. split; [exact E|].
    split; [exact Er|]. split; [reflexivity|]. split; [exact R|].
    cbn [LineNum]. intros B.
    pose proof (newScanner_tokens_le content) as Len.
    rewrite T, length_app in Len. cbn [length] in Len.
    rewrite N; lia.
  - destruct (bufio.Err _) as [cause|] eqn:S; [|discriminate].
    intros [= <- <-]. right; right.
    pose proof (scanLoop_ok_inv _ _ _ _ L) as W.
    rewrite (scanLoop_all_wellFormed _ 0 env W) in L.
    destruct (newScanner_error_inv _ _ S)
      as (-> & before & tail & J & F & T & Long).
    rewrite T in W, L. apply (proj1 (Forall_wellFormed_dropCR _)) in W.
    rewrite applyLines_dropCR in L.
    exists content, before, tail.
    split; [reflexivity|]. split; [exact J|]. split; [exact F|].
    split; [exact Long|]. split; [exact W|].
    split; [congruence|reflexivity].
Qed.

Lemma LoadSecretToEnv_failure_witness :
  let c := mockClient "A=1

bad
C=3" true in
  let env' : os.Environ := <["A" := "1"]> ∅ in
  let err :=
    Errorf_w "failed to set environment variable: %w"
      (ErrParse {| Line := "bad"; LineNum := 3;
                   Reason := "line must contain exactly one '=' character" |}) in
  (exists cause,
      GetSecret c = Fail cause /\ env' = ∅
      /\ err = Errorf_w "failed to retrieve secret: %w" cause)
  \/ (exists content before bad after p,
        GetSecret c = Ok content
        /\ bufio.Tokens (newScanner content) = (before ++ bad :: after)%list
        /\ Forall wellFormed before /\ malformed bad
        /\ env' = applyLines before ∅
        /\ err = Errorf_w "failed to set environment variable: %w"
                   (ErrParse p)
        /\ Line p = strings.TrimSpace bad
        /\ rejection (strings.TrimSpace bad) = Some (Reason p)
        /\ ((Z.of_nat (strings.len content) <= int.MaxInt)%Z ->
            LineNum p = (Z.of_nat (length before) + 1)%Z))
  \/ (exists content before tail,
        GetSecret c = Ok content
        /\ content = joinLines before tail
        /\ Forall shortLine before
        /\ (bufio.MaxScanTokenSize <= Z.of_nat (lineLen tail))%Z
        /\ Forall wellFormed before
        /\ env' = applyLines before ∅
        /\ err = Errorf_w "error reading secret content: %w"
                   bufio.ErrTooLong).
Proof.
  intros c env' err.
  apply (LoadSecretToEnv_failure c ∅ env' err). vm_compute. reflexivity.
Defined.

(** X6: a line that [parseAndSetEnv] refuses leaves the environment as it
    was, and the error is a [ParseError] that carries the line and the
    line number as given and one of four reasons; the reason is "line must
    contain exactly one '=' character" exactly when the line has no ['='],
    and the text of the error is
    "invalid format at line N (LINE): REASON". *)
Theorem parseAndSetEnv_refusal (line : string) (lineNum : Z)
    (env env' : os.Environ) (err : error) :
  parseAndSetEnv line lineNum env = (env', Some err) ->
  env' = env
  /\ exists reason,
      err = ErrParse {| Line := line; LineNum := lineNum; Reason := reason |}
      /\ In reason parseReasons
      /\ (reason = "line must contain exactly one '=' character"
          <-> strings.Contains line "=" = false)
      /\ Error err
         = "invalid format at line " ++ fmt.Itoa lineNum ++ " (" ++ line
           ++ "): " ++ reason.
Proof.
  intros H. split; [eapply parseAndSetEnv_error_env, H|].
  rewrite Contains_byte. unfold os.hasByte, parseReasons.
  destruct (strings.IndexByte line "=") as [m|] eqn:I.
  - rewrite (parseAndSetEnv_split _ _ _ _ I) in H. cbv zeta in H.
    repeat match type of H with
           | (if ?b then _ else _) = _ => destruct b
           end;
      try discriminate; injection H as _ <-; eexists;
      (split; [reflexivity|]); cbn [In Error];
      rewrite ParseError_Error_text; cbn [Line LineNum Reason];
      (split; [tauto|]); (split; [split; discriminate|reflexivity]).
  - rewrite (parseAndSetEnv_unsplit _ _ _ I) in H. injection H as _ <-.
    eexists. split; [reflexivity|]. cbn [In Error].
    rewrite ParseError_Error_text. cbn [Line LineNum Reason].
    split; [tauto|]. split; [split; reflexivity|reflexivity].
Qed.

Lemma parseAndSetEnv_refusal_witness :
  exists reason,
    ErrParse {| Line := "FOO=bar=baz"; LineNum := 12;
                Reason := "invalid specific key-value pair" |}
    = ErrParse {| Line := "FOO=bar=baz"; LineNum := 12; Reason := reason |}
    /\ In reason parseReasons
    /\ (reason = "line must contain exactly one '=' character"
        <-> strings.Contains "FOO=bar=baz" "=" = false)
    /\ Error (ErrParse {| Line := "FOO=bar=baz"; LineNum := 12;
                          Reason := "invalid specific key-value pair" |})
       = "invalid format at line " ++ fmt.Itoa 12 ++ " (" ++ "FOO=bar=baz"
         ++ "): " ++ reason.
Proof.
  apply (proj2 (parseAndSetEnv_refusal "FOO=bar=baz" 12 ∅ ∅ _ eq_refl)).
Defined.

(** X7: a line that [parseAndSetEnv] accepts sets exactly one variable.
    Its name is not empty and holds neither ['='] nor NUL, its value holds
    no NUL; [os.Getenv] of that name then returns the value, every other
    variable is as before, and parsing the same line again changes
    nothing. *)
Theorem parseAndSetEnv_sets_one (line : string) (lineNum : Z)
    (env env' : os.Environ) :
  parseAndSetEnv line lineNum env = (env', None) ->
  exists key value,
    sets line key value
    /\ key <> "" /\ strings.Contains key "=" = false
    /\ noNUL key /\ noNUL value
    /\ os.Getenv key env' = value
    /\ (forall k, k <> key -> env' !! k = env !! k)
    /\ forall n, parseAndSetEnv line n env' = (env', None).
Proof.
  intros H.
  destruct (parseAndSetEnv_accepted _ _ _ _ H)
    as (m & key & value & _ & _ & V & S & _).
  apply validSetenv_true in V as (K & E & N1 & N2).
  rewrite (S lineNum env) in H. injection H as <-.
  exists key, value. split; [exact S|]. split; [exact K|].
  split; [rewrite Contains_byte; unfold os.hasByte; now rewrite E|].
  split; [exact N1|]. split; [exact N2|].
  split; [unfold os.Getenv; now rewrite lookup_insert_eq|].
  split; [intros k D; now apply lookup_insert_ne|].
  intros n. now rewrite S, insert_insert_eq.
Qed.

Lemma parseAndSetEnv_sets_one_witness :
  exists key value,
    sets "  PATH = [a=b] " key value
    /\ key <> "" /\ strings.Contains key "=" = false
    /\ noNUL key /\ noNUL value
    /\ os.Getenv key (<["PATH" := "a=b"]> (<["HOME" := "/root"]> ∅)) = value
    /\ (forall k, k <> key ->
        (<["PATH" := "a=b"]> (<["HOME" := "/root"]> ∅) : os.Environ) !! k
        = (<["HOME" := "/root"]> ∅ : os.Environ) !! k)
    /\ forall n,
        parseAndSetEnv "  PATH = [a=b] " n
          (<["PATH" := "a=b"]> (<["HOME" := "/root"]> ∅))
        = (<["PATH" := "a=b"]> (<["HOME" := "/root"]> ∅), None).
Proof.
  apply (parseAndSetEnv_sets_one "  PATH = [a=b] " 1
           (<["HOME" := "/root"]> ∅)).
  reflexivity.
Defined.

(** The loop never unsets a variable, and a variable it changes is named
    by one of its tokens. *)
Lemma scanLoop_frame (tokens : list string) (lineNum : Z)
    (env env' : os.Environ) (r : option error) (k : string) :
  scanLoop tokens lineNum env = (env', r) ->
  (is_Some (env !! k) -> is_Some (env' !! k))
  /\ (env' !! k <> env !! k ->
      exists text v, In text tokens /\ sets (strings.TrimSpace text) k v).
Proof.
  revert lineNum env. induction tokens as [|text tokens IH];
    intros lineNum env H.
  - injection H as <- <-. now split.
  - destruct (String.eqb_spec (strings.TrimSpace text) "") as [B|B].
    + rewrite (scanLoop_blank _ _ _ _ B) in H.
      destruct (IH _ _ H) as [I1 I2]. split; [exact I1|].
      intros D. destruct (I2 D) as (t & v & M & S).
      exists t, v. split; [now right|exact S].
    + rewrite (scanLoop_line _ _ _ _ B) in H.
      destruct (parseAndSetEnv_shape (strings.TrimSpace text))
        as [(reason & R)|(key & value & S)].
      * rewrite R in H. injection H as <- <-. now split.
      * rewrite S in H. destruct (IH _ _ H) as [I1 I2]. split.
        -- intros Some_k. apply I1.
           destruct (String.eqb_spec key k) as [->|N];
             [rewrite lookup_insert_eq; eauto|now rewrite lookup_insert_ne].
        -- intros D.
           destruct (decide (env' !! k = <[key := value]> env !! k))
             as [E|E].
           ++ destruct (String.eqb_spec key k) as [->|N].
              ** exists text, value. split; [now left|exact S].
              ** rewrite lookup_insert_ne in E by exact N. contradiction.
           ++ destruct (I2 E) as (t & v & M & St).
              exists t, v. split; [now right|exact St].
Qed.

(** X8: whatever its outcome, [LoadSecretToEnv] never unsets a variable,
    and a variable whose value it changed is the key of some line of the
    secret: everything else in the environment is left alone. *)
Theorem LoadSecretToEnv_frame (c : Client) (env env' : os.Environ)
    (r : option error) (k : string) :
  LoadSecretToEnv c env = (env', r) ->
  (is_Some (env !! k) -> is_Some (env' !! k))
  /\ (env' !! k <> env !! k ->
      exists content text v,
        GetSecret c = Ok content
        /\ In text (bufio.Tokens (newScanner content))
        /\ sets (strings.TrimSpace text) k v).
Proof.
  unfold LoadSecretToEnv.
  destruct (GetSecret c) as [content|cause];
    [|intros [= <- <-]; now split].
  destruct (scanLoop _ 0 env) as [e o] eqn:L.
  destruct (scanLoop_frame _ _ _ _ _ k L) as [I1 I2].
  intros H.
  assert (E : env' = e)
    by (destruct o; [|destruct (bufio.Err _)]; congruence).
  subst e. split; [exact I1|].
  intros D. destruct (I2 D) as (t & v & M & S). now exists content, t, v.
Qed.

Lemma LoadSecretToEnv_frame_witness :
  (is_Some ((<["HOME" := "/root"]> ∅ : os.Environ) !! "HOME") ->
   is_Some ((<["A" := "1"]> (<["HOME" := "/root"]> ∅) : os.Environ)
            !! "HOME"))
  /\ ((<["A" := "1"]> (<["HOME" := "/root"]> ∅) : os.Environ) !! "HOME"
      <> (<["HOME" := "/root"]> ∅ : os.Environ) !! "HOME" ->
      exists content text v,
        GetSecret (mockClient "A=1
oops" true) = Ok content
        /\ In text (bufio.Tokens (newScanner content))
        /\ sets (strings.TrimSpace text) "HOME" v).
Proof.
  apply (LoadSecretToEnv_frame (mockClient "A=1
oops" true) (<["HOME" := "/root"]> ∅)
           (<["A" := "1"]> (<["HOME" := "/root"]> ∅))
           (Some (Errorf_w "failed to set environment variable: %w"
              (ErrParse {| Line := "oops"; LineNum := 2;
                           Reason :=
                             "line must contain exactly one '=' character" |})))
           "HOME").
  vm_compute. reflexivity.
Defined.

(** Tokens that do not set [key] leave it as it is. *)
Lemma applyLines_other (tokens : list string) (env : os.Environ)
    (key : string) :
  Forall wellFormed tokens ->
  (forall text v, In text tokens -> ~ sets (strings.TrimSpace text) key v) ->
  applyLines tokens env !! key = env !! key.
Proof.
  intros W. revert env. induction W as [|text tokens Wt _ IH]; intros env N;
    [reflexivity|].
  cbn [applyLines fold_left]. fold (applyLines tokens (applyLine env text)).
  rewrite IH by (intros t v M; apply N; now right).
  destruct (wellFormed_sets text Wt) as [B|(_ & k & v & S)].
  - unfold applyLine. now rewrite B.
  - rewrite (proj2 (applyLine_sets text k v env S)).
    apply lookup_insert_ne. intros ->. apply (N text v); [now left|exact S].
Qed.

(** X9: the last line wins.  After a load without error, a variable holds
    the value of the last line of the secret that sets it, whatever
    earlier lines and the environment before held. *)
Theorem LoadSecretToEnv_last_write (c : Client) (env env' : os.Environ)
    (content : string) (before after : list string)
    (text key value : string) :
  LoadSecretToEnv c env = (env', None) ->
  GetSecret c = Ok content ->
  bufio.Tokens (newScanner content) = (before ++ text :: after)%list ->
  sets (strings.TrimSpace text) key value ->
  (forall t v, In t after -> ~ sets (strings.TrimSpace t) key v) ->
  env' !! key = Some value.
Proof.
  intros H G T S N.
  destruct (LoadSecretToEnv_ok_inv _ _ _ H) as (content' & G' & W & _ & ->).
  rewrite G in G'. injection G' as <-. rewrite T in *.
  apply Forall_app in W as [_ W]. apply Forall_cons in W as [_ W].
  rewrite applyLines_app. cbn [applyLines fold_left].
  fold (applyLines before env).
  fold (applyLines after (applyLine (applyLines before env) text)).
  rewrite (applyLines_other _ _ _ W N).
  rewrite (proj2 (applyLine_sets text key value _ S)).
  apply lookup_insert_eq.
Qed.

Lemma LoadSecretToEnv_last_write_witness :
  (<["B" := "2"]> (<["A" := "3"]> ∅) : os.Environ) !! "A" = Some "3".
Proof.
  apply (LoadSecretToEnv_last_write (mockClient "A=1
A=3
B=2" true) (<["A" := "0"]> ∅) (<["B" := "2"]> (<["A" := "3"]> ∅))
           "A=1
A=3
B=2" ["A=1"] ["B=2"] "A=3" "A" "3").
  - vm_compute. reflexivity.
  - reflexivity.
  - reflexivity.
  - intros n e. reflexivity.
  - intros t v [<-|[]] S. specialize (S 0%Z ∅).
    apply (f_equal (fun p => fst p !! "A")) in S. vm_compute in S.
    discriminate.
Defined.

(** X10: loading is idempotent.  When a load returns no error, a second
    load of the same secret into the environment the first one left
    returns no error either and changes nothing. *)
Theorem LoadSecretToEnv_idempotent (c : Client) (env env' : os.Environ) :
  LoadSecretToEnv c env = (env', None) ->
  LoadSecretToEnv c env' = (env', None).
Proof.
  intros H.
  destruct (LoadSecretToEnv_ok_inv _ _ _ H) as (content & G & W & S & ->).
  unfold LoadSecretToEnv. rewrite G, (scanLoop_all_wellFormed _ 0 _ W), S.
  destruct (wellFormed_writes _ W) as (ws & E).
  now rewrite !E, writes_idempotent.
Qed.

Lemma LoadSecretToEnv_idempotent_witness :
  LoadSecretToEnv (mockClient "A=1
A=3
B=[x=y]" true) (<["B" := "x=y"]> (<["A" := "3"]> ∅))
  = (<["B" := "x=y"]> (<["A" := "3"]> ∅), None).
Proof.
  apply (LoadSecretToEnv_idempotent _ (<["A" := "0"]> ∅)).
  vm_compute. reflexivity.
Defined.

(** X11: with the test double as the service, [GetSecret] returns the
    payload of the double byte for byte, whatever the configuration, when
    the double succeeds, and an error with the text
    "failed to access secret: access error" when it does not. *)
Theorem GetSecret_mock (payload : string) (cfg : Config) :
  GetSecret {| client := mockSecretManagerClient payload true;
               config := cfg |} = Ok payload
  /\ exists err,
      GetSecret {| client := mockSecretManagerClient payload false;
                   config := cfg |} = Fail err
      /\ Error err = "failed to access secret: access error".
Proof.
  unfold GetSecret, mockSecretManagerClient.
  cbn [client AccessSecretVersion secretmanagerpb.Payload
         secretmanagerpb.Data].
  split; [now rewrite string_of_list_byte_of_string|].
  eexists. split; reflexivity.
Qed.

(** A short input holds no line that is too long. *)
Lemma scan_short (fuel : nat) (data : string) :
  (Z.of_nat (strings.len data) < bufio.MaxScanTokenSize)%Z ->
  snd (bufio.scan fuel data) = None.
Proof.
  revert data. induction fuel as [|fuel IH]; intros data L; [reflexivity|].
  cbn [bufio.scan]. unfold bufio.ScanLines.
  destruct data as [|a s]; [reflexivity|]. set (d := String a s) in *.
  destruct (strings.IndexByte d "010") as [i|] eqn:I.
  - destruct (IndexByte_Some _ _ _ I) as (_ & _ & Len).
    destruct (Z.leb_spec bufio.MaxScanTokenSize (Z.of_nat i)); [lia|].
    specialize (IH (strings.drop (i + 1) d)).
    destruct (bufio.scan fuel (strings.drop (i + 1) d)) as [ts e].
    apply IH. lia.
  - destruct (Z.leb_spec bufio.MaxScanTokenSize (Z.of_nat (strings.len d)));
      [lia|].
    specialize (IH (strings.drop (strings.len d) d)).
    destruct (bufio.scan fuel (strings.drop (strings.len d) d)) as [ts e].
    apply IH. rewrite drop_len. lia.
Qed.

(** X12: on a secret shorter than the scanner's 64 KiB token limit the
    scanner reports no error, so that the only error [LoadSecretToEnv] can
    return after a successful fetch is "failed to set environment
    variable" around the [ParseError] of a line. *)
Theorem LoadSecretToEnv_short_secret (c : Client) (content : string)
    (env env' : os.Environ) (err : error) :
  GetSecret c = Ok content ->
  (Z.of_nat (strings.len content) < bufio.MaxScanTokenSize)%Z ->
  LoadSecretToEnv c env = (env', Some err) ->
  bufio.Err (newScanner content) = None
  /\ exists p,
      err = Errorf_w "failed to set environment variable: %w" (ErrParse p)
      /\ Unwrap err = Some (ErrParse p)
      /\ strings.Contains (Error err) "failed to set environment variable"
         = true.
Proof.
  intros G L H.
  assert (S : bufio.Err (newScanner content) = None).
  { unfold newScanner, bufio.NewScanner.
    pose proof (scan_short (strings.len content) content L) as E.
    now destruct (bufio.scan _ content). }
  split; [exact S|]. unfold LoadSecretToEnv in H. rewrite G, S in H.
  destruct (scanLoop _ 0 env) as [e [perr|]] eqn:Lp; [|discriminate].
  injection H as _ <-.
  destruct (scanLoop_error_inv _ _ _ _ _ Lp)
    as (b & bad & a & reason & num & _ & _ & _ & _ & _ & -> & _).
  eexists. split; [reflexivity|]. split; [reflexivity|].
  rewrite Errorf_w_setenv. reflexivity.
Qed.

Lemma LoadSecretToEnv_short_secret_witness :
  bufio.Err (newScanner "FOO=bar=baz") = None
  /\ exists p,
      Errorf_w "failed to set environment variable: %w"
        (ErrParse {| Line := "FOO=bar=baz"; LineNum := 1;
                     Reason := "invalid specific key-value pair" |})
      = Errorf_w "failed to set environment variable: %w" (ErrParse p)
      /\ Unwrap (Errorf_w "failed to set environment variable: %w"
                   (ErrParse {| Line := "FOO=bar=baz"; LineNum := 1;
                                Reason := "invalid specific key-value pair" |}))
         = Some (ErrParse p)
      /\ strings.Contains
           (Error (Errorf_w "failed to set environment variable: %w"
                     (ErrParse {| Line := "FOO=bar=baz"; LineNum := 1;
                                  Reason :=
                                    "invalid specific key-value pair" |})))
           "failed to set environment variable" = true.
Proof.
  apply (LoadSecretToEnv_short_secret (mockClient "FOO=bar=baz" true)
           "FOO=bar=baz" ∅ ∅).
  - reflexivity.
  - reflexivity.
  - reflexivity.
Defined.

(** ** Trimmed strings *)

Lemma spaceWidth_prefix3 (a b c : nat) :
  strings.spaceWidth [a; b; c] = 0%nat -> strings.spaceWidth [a; b] = 0%nat.
Proof.
  unfold strings.spaceWidth.
  destruct (strings.asciiSpace (ascii_of_nat a)); [discriminate|].
  now destruct ((a =? 194) && ((b =? 133) || (b =? 160)))%nat.
Qed.

Lemma spaceWidth_prefix2 (a b : nat) :
  strings.spaceWidth [a; b] = 0%nat -> strings.spaceWidth [a] = 0%nat.
Proof.
  unfold strings.spaceWidth.
  now destruct (strings.asciiSpace (ascii_of_nat a)).
Qed.

Lemma head3_prefix (n : nat) (s : string) :
  strings.spaceWidth (strings.head3 s) = 0%nat ->
  strings.spaceWidth (strings.head3 (String.substring 0 n s)) = 0%nat.
Proof.
  intros H.
  destruct s as [|a [|b [|c s]]]; destruct n as [|[|[|n]]];
    cbn [String.substring strings.head3] in *;
    try reflexivity; try exact H;
    try (now apply spaceWidth_prefix2 in H);
    try (now apply spaceWidth_prefix3 in H);
    try (now apply spaceWidth_prefix3, spaceWidth_prefix2 in H).
  all: destruct s; try destruct n; cbn [String.substring strings.head3];
    exact H.
Qed.

Lemma trimLeft_head (fuel : nat) (s : string) :
  (strings.len s <= fuel)%nat ->
  strings.spaceWidth (strings.head3 (strings.trimLeft fuel s)) = 0%nat.
Proof.
  revert s. induction fuel as [|fuel IH]; intros s L.
  - apply Nat.le_0_r, len_0 in L. now subst s.
  - cbn [strings.trimLeft].
    destruct (strings.spaceWidth (strings.head3 s)) as [|w] eqn:W;
      [exact W|].
    apply IH. rewrite drop_len. lia.
Qed.

Lemma trimRight_last (fuel : nat) (s : string) :
  (strings.len s <= fuel)%nat ->
  strings.lastSpaceWidth (strings.trimRight fuel s) = 0%nat.
Proof.
  revert s. induction fuel as [|fuel IH]; intros s L.
  - apply Nat.le_0_r, len_0 in L. now subst s.
  - cbn [strings.trimRight].
    destruct (strings.lastSpaceWidth s) as [|w] eqn:W; [exact W|].
    assert (N : (1 <= strings.len s)%nat)
      by (destruct s; [discriminate|simpl; lia]).
    pose proof (substring_0_len (strings.len s - S w) s) as B.
    apply IH. rewrite slice_0. unfold strings.len in *. lia.
Qed.

Lemma trimRight_head (fuel : nat) (s : string) :
  strings.spaceWidth (strings.head3 s) = 0%nat ->
  strings.spaceWidth (strings.head3 (strings.trimRight fuel s)) = 0%nat.
Proof.
  revert s. induction fuel as [|fuel IH]; intros s H; [exact H|].
  cbn [strings.trimRight].
  destruct (strings.lastSpaceWidth s); [exact H|].
  apply IH. rewrite slice_0. now apply head3_prefix.
Qed.

(** What [strings.TrimSpace] returns has no white space left at either
    end. *)
Lemma TrimSpace_trimmed (s : string) : trimmed (strings.TrimSpace s).
Proof.
  unfold trimmed, strings.TrimSpace. split.
  - apply trimRight_head, trimLeft_head, le_n.
  - apply trimRight_last, le_n.
Qed.

(** A line sets one variable to one value only. *)
Lemma sets_unique (line k v k' v' : string) :
  sets line k v -> sets line k' v' -> k = k' /\ v = v'.
Proof.
  intros S S'. pose proof (S 0%Z ∅) as H. rewrite (S' 0%Z ∅) in H.
  apply (f_equal fst) in H. cbn [fst] in H.
  pose proof (f_equal (fun e : os.Environ => e !! k) H) as E.
  cbv beta in E. rewrite lookup_insert_eq in E.
  destruct (String.eqb_spec k' k) as [->|N].
  - rewrite lookup_insert_eq in E. split; congruence.
  - rewrite lookup_insert_ne, lookup_empty in E by exact N. discriminate.
Qed.

(** X13: the name of a variable that a line sets never starts or ends with
    white space, and neither does its value when that value holds no
    ['=']: the white space around the key, around the value and so around
    the ['='] of the line is dropped. *)
Theorem parseAndSetEnv_trims (line key value : string) :
  sets line key value ->
  trimmed key
  /\ (strings.Contains value "=" = false -> trimmed value).
Proof.
  intros S.
  destruct (parseAndSetEnv_accepted _ _ _ _ (S 0%Z ∅))
    as (m & k & v & _ & -> & _ & S' & C).
  destruct (sets_unique _ _ _ _ _ S S') as [-> ->].
  split; [apply TrimSpace_trimmed|].
  destruct C as [[-> _]|[_ C]]; [intros _; apply TrimSpace_trimmed|].
  congruence.
Qed.

Lemma parseAndSetEnv_trims_witness :
  trimmed "KEY" /\ (strings.Contains "some value" "=" = false ->
                    trimmed "some value").
Proof.
  apply (parseAndSetEnv_trims "   KEY  =   some value  ").
  intros n e. reflexivity.
Defined.

(** ** Secrets of white space *)

Lemma allSpace_substring (i n : nat) (s : string) :
  allSpace s = true -> allSpace (String.substring i n s) = true.
Proof.
  revert i n. induction s as [|a s IH]; intros i n H.
  - now destruct i, n.
  - cbn [allSpace] in H. apply andb_true_iff in H as [A S].
    destruct i as [|i]; [destruct n as [|n]|]; cbn [String.substring allSpace];
      auto.
    now rewrite A, IH.
Qed.

Lemma allSpace_drop (n : nat) (s : string) :
  allSpace s = true -> allSpace (strings.drop n s) = true.
Proof.
  revert s. induction n as [|n IH]; intros [|a s] H; cbn [strings.drop]; auto.
  cbn [allSpace] in H. apply andb_true_iff in H as [_ S]. now apply IH.
Qed.

Lemma allSpace_dropCR (data : string) :
  allSpace data = true -> allSpace (bufio.dropCR data) = true.
Proof.
  intros H. unfold bufio.dropCR.
  destruct (strings.len data); [exact H|].
  destruct (strings.at_ data n) as [c|]; [|exact H].
  destruct (Ascii.eqb c "013"); [|exact H].
  now apply allSpace_substring.
Qed.

Lemma scan_allSpace (fuel : nat) (data : string) :
  allSpace data = true ->
  Forall (fun text => allSpace text = true) (fst (bufio.scan fuel data)).
Proof.
  revert data. induction fuel as [|fuel IH]; intros data H; [constructor|].
  cbn [bufio.scan]. unfold bufio.ScanLines.
  destruct data as [|a s]; [constructor|]. set (d := String a s) in *.
  destruct (strings.IndexByte d "010") as [i|].
  - destruct (_ <=? _)%Z; [constructor|].
    specialize (IH _ (allSpace_drop (i + 1) d H)).
    destruct (bufio.scan fuel (strings.drop (i + 1) d)) as [ts e].
    constructor; [|exact IH].
    now apply allSpace_dropCR, allSpace_substring.
  - destruct (_ <=? _)%Z; [constructor|].
    specialize (IH _ (allSpace_drop (strings.len d) d H)).
    destruct (bufio.scan fuel (strings.drop (strings.len d) d)) as [ts e].
    constructor; [|exact IH]. now apply allSpace_dropCR.
Qed.

Lemma applyLines_blank (tokens : list string) (env : os.Environ) :
  Forall (fun text => allSpace text = true) tokens ->
  Forall wellFormed tokens /\ applyLines tokens env = env.
Proof.
  induction 1 as [|text tokens A _ [W E]]; [now split|].
  apply TrimSpace_allSpace in A. split; [constructor; [now left|exact W]|].
  cbn [applyLines fold_left]. unfold applyLine at 2. rewrite A. exact E.
Qed.

(** X14: a secret that is empty or holds nothing but ASCII white space
    (spaces, tabs, line ends), and is shorter than the scanner's 64 KiB
    limit, loads without error and leaves the environment exactly as it
    was. *)
Theorem LoadSecretToEnv_blank_secret (c : Client) (content : string)
    (env : os.Environ) :
  GetSecret c = Ok content ->
  allSpace content = true ->
  (Z.of_nat (strings.len content) < bufio.MaxScanTokenSize)%Z ->
  LoadSecretToEnv c env = (env, None).
Proof.
  intros G A L. unfold LoadSecretToEnv. rewrite G.
  assert (S : bufio.Err (newScanner content) = None
              /\ Forall (fun text => allSpace text = true)
                   (bufio.Tokens (newScanner content))).
  { unfold newScanner, bufio.NewScanner.
    pose proof (scan_short (strings.len content) content L) as E.
    pose proof (scan_allSpace (strings.len content) content A) as F.
    now destruct (bufio.scan _ content). }
  destruct S as [S F]. destruct (applyLines_blank _ env F) as [W E].
  now rewrite (scanLoop_all_wellFormed _ 0 env W), S, E.
Qed.

Lemma LoadSecretToEnv_blank_secret_witness :
  LoadSecretToEnv (mockClient "  

   " true) (<["HOME" := "/root"]> ∅)
  = (<["HOME" := "/root"]> ∅, None).
Proof.
  apply (LoadSecretToEnv_blank_secret _ "  

   "); reflexivity.
Defined.
